(** * mushroom-classifier-go: the request/response exchange

    A shallow embedding of the packages [httpclient], [base64] and [openai]
    of the repository, and the properties of the exchange pipeline
    ([ReadImageToBase64], [PostJSON], [AnalyzeImage]).

    Go values are modelled as follows.
    - [string] is a byte sequence: Rocq's [string] (one [ascii] per byte).
    - [[]byte] is [list byte].
    - [int] is [Z] (no arithmetic is performed on the two [int] fields the
      code handles, [MaxTokens] and [StatusCode], only comparisons).
    - [error] is the inductive [error] below; [nil] is [None].
    - a function returning [(T, error)] returns a pair, with [option] where
      the Go value is a pointer that may be [nil].
    - the network, the file system and the two entry points of
      [encoding/json] are the records [Net], [FS] and [openai.JSON]; the
      theorems about [PostJSON], [ReadImageToBase64] and [AnalyzeImage]
      hold for every value of these records. *)

From Stdlib Require Import ZArith NArith List String Ascii Bool Lia.
From Stdlib Require Import Strings.Byte DecimalString.
From coqutil Require Import Byte Z.prove_Zeq_bitwise.
Import ListNotations.

Local Open Scope string_scope.
Local Open Scope Z_scope.

(** ** Go's [error] values and [fmt] verbs *)

Inductive error : Type :=
| errorString (s : string)              (* fmt.Errorf without %w, errors.New *)
| wrapError (msg : string) (err : error) (* fmt.Errorf with one %w *)
| libError (text : string).             (* an error made by a library call *)

(** The [Error()] method; [%v] and [%w] print it. *)
Definition Error (e : error) : string :=
  match e with
  | errorString s => s
  | wrapError msg _ => msg
  | libError text => text
  end.

(** The verb [%d] on an [int]. *)
Definition itoa (z : Z) : string := NilZero.string_of_int (Z.to_int z).

(** The conversion [string(b)] of a byte slice. *)
Definition string_of_bytes (b : list byte) : string := string_of_list_byte b.

(** The conversion [[]byte(s)]. *)
Definition bytes_of_string (s : string) : list byte := list_byte_of_string s.

(** ** Package [net/http], as far as [PostJSON] uses it *)

Module http.

(** [Timeout] is a [time.Duration], in nanoseconds. *)
Record Client : Type := mkClient { Timeout : Z }.

Record Request : Type := mkRequest {
  Method : string;
  URL : string;
  Header : list (string * string);
  Body : string
}.

(** What a completed exchange hands back: the status line's code and what
    reading the body stream to its end yields. *)
Record Response : Type := mkResponse {
  StatusCode : Z;
  BodyStream : error + list byte
}.

(** [Header.Set]: replaces the values stored under the key.  (The keys
    that [PostJSON] sets are in canonical form already.) *)
Definition Header_Set (key value : string) (h : list (string * string))
  : list (string * string) :=
  (filter (fun kv => negb (String.eqb (fst kv) key)) h ++ [(key, value)])%list.

Definition set_Header (r : Request) (h : list (string * string)) : Request :=
  {| Method := Method r; URL := URL r; Header := h; Body := Body r |}.

End http.

(** [time.Second], in nanoseconds. *)
Definition time_Second : Z := 1000000000.

(** ** Observable effects

    The trace records, in order, the calls by which the code reaches
    outside its packages.  A call of [client.Do] is one event.  What the
    client puts on the wire for that call is the client's own business
    and is not recorded: it follows redirects (the client of [PostJSON]
    sets no [CheckRedirect]), so that one call can send several requests,
    and it sends none when no connection can be made. *)

Inductive Event : Type :=
| Call_PostJSON (URL AuthToken JSONBody : string)  (* httpclient.PostJSON entered *)
| Net_Do (c : http.Client) (r : http.Request)      (* c.Do(r) is called *)
| Body_Close.                                      (* resp.Body.Close() *)

Definition Trace : Type := list Event.

(** A Go function body either returns a value or panics. *)
Inductive res (A : Type) : Type :=
| Val (a : A)
| Panic (reason : string).

Arguments Val {A} a.
Arguments Panic {A} reason.

Definition IO (A : Type) : Type := Trace -> res A * Trace.

Definition ret {A : Type} (a : A) : IO A := fun t => (Val a, t).

Definition bind {A B : Type} (m : IO A) (k : A -> IO B) : IO B :=
  fun t =>
    match m t with
    | (Val a, t') => k a t'
    | (Panic r, t') => (Panic r, t')
    end.

Definition emit (e : Event) : IO unit := fun t => (Val tt, (t ++ [e])%list).

Definition panic {A : Type} (reason : string) : IO A := fun t => (Panic reason, t).

Declare Scope io_scope.
Delimit Scope io_scope with io.
Notation "x <- m ;; k" := (bind m (fun x => k))
  (at level 61, m at next level, right associativity) : io_scope.
Notation "m ;;; k" := (bind m (fun _ => k))
  (at level 61, right associativity) : io_scope.

(** Running a computation from the empty trace. *)
Definition run {A : Type} (m : IO A) : res A * Trace := m [].

(** ** The network *)

Record Net : Type := mkNet {
  (** [http.NewRequest method url _] fails on a method or URL it cannot
      parse. *)
  NewRequest_error : string -> string -> option error;
  (** [client.Do]: the call fails (connection, DNS, timeout, ...) or
      returns a response (the last one, when the client followed
      redirects). *)
  client_Do : http.Client -> http.Request -> error + http.Response
}.

Definition http_NewRequest (net : Net) (method url body : string)
  : error + http.Request :=
  match NewRequest_error net method url with
  | Some err => inl err
  | None => inr {| http.Method := method; http.URL := url;
                   http.Header := []; http.Body := body |}
  end.

(** [c.Do(r)]: the call is recorded, once, and the network decides what
    it returns.  The requests that the client sends during the call are
    not events of the trace. *)
Definition http_Do (net : Net) (c : http.Client) (r : http.Request)
  : IO (error + http.Response) :=
  (emit (Net_Do c r) ;;; ret (client_Do net c r))%io.

(** ** Package [httpclient] *)

Module httpclient.

Record Request : Type := mkRequest {
  URL : string;
  AuthToken : string;
  JSONBody : string
}.

Record Response : Type := mkResponse {
  Body : list byte;
  StatusCode : Z
}.

Section WithNet.
Variable net : Net.

(** [PostJSON], of Go type [func(req *Request) (resp *Response, err error)]. *)
Definition PostJSON (req : Request) : IO (option Response * option error) :=
  (emit (Call_PostJSON (URL req) (AuthToken req) (JSONBody req)) ;;;
   (* Create HTTP client with timeout *)
   let client := {| http.Timeout := 30 * time_Second |} in
   (* Create request *)
   match http_NewRequest net "POST" (URL req) (JSONBody req) with
   | inl err =>
       ret (None, Some (wrapError ("failed to create request: " ++ Error err) err))
   | inr httpReq =>
       (* Set headers *)
       let httpReq :=
         http.set_Header httpReq
           (http.Header_Set "Content-Type" "application/json" (http.Header httpReq)) in
       (* Add authorization header if token is provided *)
       let httpReq :=
         if negb (String.eqb (AuthToken req) "")
         then http.set_Header httpReq
                (http.Header_Set "Authorization" ("Bearer " ++ AuthToken req)
                   (http.Header httpReq))
         else httpReq in
       (* Perform request *)
       r <- http_Do net client httpReq ;;
       match r with
       | inl err =>
           ret (None, Some (wrapError ("failed to perform request: " ++ Error err) err))
       | inr resp =>
           (* defer resp.Body.Close() runs when the function returns *)
           result <-
             (* Read response body *)
             match http.BodyStream resp with
             | inl err =>
                 ret (None,
                      Some (wrapError ("failed to read response body: " ++ Error err) err))
             | inr body =>
                 (* Create response *)
                 let response := {| Body := body; StatusCode := http.StatusCode resp |} in
                 (* Check for HTTP errors *)
                 if http.StatusCode resp >=? 400
                 then ret (Some response,
                           Some (errorString ("HTTP error " ++ itoa (http.StatusCode resp)
                                              ++ ": " ++ string_of_bytes body)))
                 else ret (Some response, None)
             end ;;
           emit Body_Close ;;;
           ret result
       end
   end)%io.

End WithNet.

End httpclient.

(** ** Package [encoding/base64]: [StdEncoding]

    The standard alphabet of RFC 4648 with [=] padding, as
    [EncodeToString] and [DecodeString] compute it. *)

Module StdEncoding.

Definition encodeStd : string :=
  "ABCDEFGHIJKLMNOPQRSTUVWXYZabcdefghijklmnopqrstuvwxyz0123456789+/".

Definition padChar : ascii := "="%char.

(** [uint(b)] for a byte [b]. *)
Definition uint (b : byte) : Z := byte.unsigned b.

(** The conversion [byte(v)], which keeps the low eight bits. *)
Definition to_byte (v : Z) : byte := byte.of_Z v.

(** [enc.encode[v]]; every index the encoder uses is masked with [0x3F]. *)
Definition encode (v : Z) : ascii :=
  match String.get (Z.to_nat v) encodeStd with
  | Some c => c
  | None => "000"%char
  end.

Fixpoint index_from (i : Z) (c : ascii) (s : string) : option Z :=
  match s with
  | EmptyString => None
  | String d rest => if Ascii.eqb c d then Some i else index_from (i + 1) c rest
  end.

(** [enc.decodeMap[c]], with [None] for the table's [0xff] entries. *)
Definition decodeMap (c : ascii) : option Z := index_from 0 c encodeStd.

(** [Encoding.EncodeToString]: three bytes make four characters; a rest
    of one or two bytes is padded. *)
Fixpoint EncodeToString (src : list byte) : string :=
  match src with
  | [] => ""
  | [a] =>
      let val := Z.shiftl (uint a) 16 in
      String (encode (Z.land (Z.shiftr val 18) 63))
        (String (encode (Z.land (Z.shiftr val 12) 63))
           (String padChar (String padChar "")))
  | [a; b] =>
      let val := Z.lor (Z.shiftl (uint a) 16) (Z.shiftl (uint b) 8) in
      String (encode (Z.land (Z.shiftr val 18) 63))
        (String (encode (Z.land (Z.shiftr val 12) 63))
           (String (encode (Z.land (Z.shiftr val 6) 63))
              (String padChar "")))
  | a :: b :: c :: rest =>
      let val := Z.lor (Z.lor (Z.shiftl (uint a) 16) (Z.shiftl (uint b) 8)) (uint c) in
      String (encode (Z.land (Z.shiftr val 18) 63))
        (String (encode (Z.land (Z.shiftr val 12) 63))
           (String (encode (Z.land (Z.shiftr val 6) 63))
              (String (encode (Z.land val 63))
                 (EncodeToString rest))))
  end.

Definition is_newline (c : ascii) : bool :=
  Ascii.eqb c "010"%char || Ascii.eqb c "013"%char.

Fixpoint skip_newlines (s : string) : string :=
  match s with
  | String c rest => if is_newline c then skip_newlines rest else s
  | EmptyString => EmptyString
  end.

Definition is_empty (s : string) : bool :=
  match s with EmptyString => true | _ => false end.

(** The value of a quantum of four sextets. *)
Definition quantum (d0 d1 d2 d3 : Z) : Z :=
  Z.lor (Z.lor (Z.lor (Z.shiftl d0 18) (Z.shiftl d1 12)) (Z.shiftl d2 6)) d3.

(** [Encoding.DecodeString], not strict: [dbuf] holds the sextets read
    so far in the current quantum; line breaks are skipped; padding is
    accepted only where it completes the last quantum.  [None] is a
    [CorruptInputError]. *)
Fixpoint decode_from (s : string) (dbuf : list Z) : option (list byte) :=
  match s with
  | EmptyString =>
      match dbuf with
      | [] => Some []
      | _ => None
      end
  | String c rest =>
      match decodeMap c with
      | Some out =>
          match dbuf with
          | [d0; d1; d2] =>
              let val := quantum d0 d1 d2 out in
              match decode_from rest [] with
              | Some tl =>
                  Some (to_byte (Z.shiftr val 16) :: to_byte (Z.shiftr val 8)
                          :: to_byte val :: tl)
              | None => None
              end
          | _ => decode_from rest (dbuf ++ [out])%list
          end
      | None =>
          if is_newline c then decode_from rest dbuf
          else if negb (Ascii.eqb c padChar) then None
          else
            match dbuf with
            | [d0; d1] =>
                (* the second pad character is expected, then the end *)
                match skip_newlines rest with
                | String c' rest' =>
                    if Ascii.eqb c' padChar && is_empty (skip_newlines rest')
                    then Some [to_byte (Z.shiftr (quantum d0 d1 0 0) 16)]
                    else None
                | EmptyString => None
                end
            | [d0; d1; d2] =>
                if is_empty (skip_newlines rest)
                then
                  let val := quantum d0 d1 d2 0 in
                  Some [to_byte (Z.shiftr val 16); to_byte (Z.shiftr val 8)]
                else None
            | _ => None
            end
      end
  end.

Definition DecodeString (s : string) : option (list byte) := decode_from s [].

End StdEncoding.

(** ** The file system *)

Record FS : Type := mkFS {
  (** [os.ReadFile name]: the whole content, or the error of the failed
      open or read. *)
  os_ReadFile : string -> error + list byte
}.

(** ** Package [base64] *)

Module base64.

(** [func EncodeData(data []byte) string] *)
Definition EncodeData (data : list byte) : string :=
  StdEncoding.EncodeToString data.

Section WithFS.
Variable fs : FS.

(** [func ReadImageToBase64(filename string) (string, error)] *)
Definition ReadImageToBase64 (filename : string) : string * option error :=
  (* Read the entire file *)
  match os_ReadFile fs filename with
  | inl err =>
      ("", Some (wrapError ("failed to read file " ++ filename ++ ": " ++ Error err) err))
  | inr data =>
      (* Check if file is empty *)
      if Nat.eqb (List.length data) 0
      then ("", Some (errorString ("file " ++ filename ++ " is empty")))
      else
        (* Encode to base64 *)
        let encoded := EncodeData data in
        (encoded, None)
  end.

End WithFS.

End base64.

(** ** Package [openai] *)

Module openai.

(** [type Request struct] *)
Record Request : Type := mkRequest {
  APIKey : string;
  APIURL : string;
  Model : string;
  Prompt : string;
  Base64Image : string;
  MaxTokens : Z
}.

(** [type Response struct] *)
Record Response : Type := mkResponse {
  Content : string;
  ErrorMessage : string;
  Success : bool
}.

(** [type imageURL struct] *)
Module imageURL.
Record t : Type := mk { URL : string }.
End imageURL.

(** [type content struct]; [ImageURL] is a pointer, [None] is [nil]. *)
Module content.
Record t : Type := mk {
  Type_ : string;
  Text : string;
  ImageURL : option imageURL.t
}.
End content.

(** [type message struct] *)
Module message.
Record t : Type := mk {
  Role : string;
  Content : list content.t
}.
End message.

(** [type chatCompletionRequest struct] *)
Module chatCompletionRequest.
Record t : Type := mk {
  Model : string;
  Messages : list message.t;
  MaxTokens : Z
}.
End chatCompletionRequest.

(** [type chatCompletionResponse struct], with its anonymous struct types
    named after their fields. *)
Module chatCompletionResponse.

Module Message.
Record t : Type := mk { Content : string }.
End Message.

Module Choice.
Record t : Type := mk { Message : Message.t }.
End Choice.

Module Error.
Record t : Type := mk {
  Message : string;
  Type_ : string;
  Code : string
}.
End Error.

Record t : Type := mk {
  Choices : list Choice.t;
  Error : option Error.t
}.

End chatCompletionResponse.

(** The two [encoding/json] entry points, at the types [AnalyzeImage] uses
    them. *)
Record JSON : Type := mkJSON {
  json_Marshal : chatCompletionRequest.t -> error + list byte;
  json_Unmarshal : list byte -> error + chatCompletionResponse.t
}.

Definition set_Model (req : Request) (m : string) : Request :=
  {| APIKey := APIKey req; APIURL := APIURL req; Model := m; Prompt := Prompt req;
     Base64Image := Base64Image req; MaxTokens := MaxTokens req |}.

Definition set_MaxTokens (req : Request) (n : Z) : Request :=
  {| APIKey := APIKey req; APIURL := APIURL req; Model := Model req; Prompt := Prompt req;
     Base64Image := Base64Image req; MaxTokens := n |}.

Section WithWorld.
Variable net : Net.
Variable js : JSON.

(** [AnalyzeImage], of Go type [func(req *Request) (resp *Response, err error)].
    Every [return] of the function hands back the address of a fresh
    [Response], so the first component is never [nil].  The assignments to
    [req.Model] and [req.MaxTokens] are kept as rebindings of [req]; the
    callers build the request anew for each call and do not read it
    afterwards. *)
Definition AnalyzeImage (req : Request) : IO (Response * option error) :=
  (* Validate request *)
  if String.eqb (APIKey req) "" then
    ret ({| Success := false; ErrorMessage := "API key is required"; Content := "" |}, None)
  else if String.eqb (APIURL req) "" then
    ret ({| Success := false; ErrorMessage := "API URL is required"; Content := "" |}, None)
  else if String.eqb (Prompt req) "" then
    ret ({| Success := false; ErrorMessage := "Prompt is required"; Content := "" |}, None)
  else
  (* Set defaults *)
  let req := if String.eqb (Model req) "" then set_Model req "gpt-4o" else req in
  let req := if MaxTokens req <=? 0 then set_MaxTokens req 1000 else req in
  (* Build message content *)
  let messageContent :=
    [ {| content.Type_ := "text"; content.Text := Prompt req; content.ImageURL := None |} ] in
  (* Add image if provided *)
  let messageContent :=
    if negb (String.eqb (Base64Image req) "")
    then (messageContent ++
          [ {| content.Type_ := "image_url"; content.Text := "";
               content.ImageURL :=
                 Some {| imageURL.URL := "data:image/jpeg;base64," ++ Base64Image req |} |} ])%list
    else messageContent in
  (* Build request *)
  let chatReq :=
    {| chatCompletionRequest.Model := Model req;
       chatCompletionRequest.Messages :=
         [ {| message.Role := "user"; message.Content := messageContent |} ];
       chatCompletionRequest.MaxTokens := MaxTokens req |} in
  (* Marshal to JSON *)
  match json_Marshal js chatReq with
  | inl err =>
      ret ({| Success := false;
              ErrorMessage := "Failed to marshal request: " ++ Error err;
              Content := "" |}, None)
  | inr jsonBody =>
      (* Make HTTP request *)
      let httpReq :=
        {| httpclient.URL := APIURL req;
           httpclient.AuthToken := APIKey req;
           httpclient.JSONBody := string_of_bytes jsonBody |} in
      (r <- httpclient.PostJSON net httpReq ;;
       let '(httpResp, err) := r in
       match err with
       | Some err =>
           ret ({| Success := false;
                   ErrorMessage := "HTTP request failed: " ++ Error err;
                   Content := "" |}, None)
       | None =>
           (* Parse response *)
           match httpResp with
           | None => panic "invalid memory address or nil pointer dereference"
           | Some httpResp =>
               match json_Unmarshal js (httpclient.Body httpResp) with
               | inl err =>
                   ret ({| Success := false;
                           ErrorMessage := "Failed to parse response: " ++ Error err;
                           Content := "" |}, None)
               | inr chatResp =>
                   (* Check for API error *)
                   match chatCompletionResponse.Error chatResp with
                   | Some apiErr =>
                       ret ({| Success := false;
                               ErrorMessage :=
                                 "OpenAI API error: "
                                   ++ chatCompletionResponse.Error.Message apiErr;
                               Content := "" |}, None)
                   | None =>
                       (* Extract content from response *)
                       if Nat.eqb (List.length (chatCompletionResponse.Choices chatResp)) 0
                       then
                         ret ({| Success := false;
                                 ErrorMessage := "No response from OpenAI API";
                                 Content := "" |}, None)
                       else
                         match nth_error (chatCompletionResponse.Choices chatResp) 0 with
                         | Some choice =>
                             ret ({| Success := true;
                                     Content :=
                                       chatCompletionResponse.Message.Content
                                         (chatCompletionResponse.Choice.Message choice);
                                     ErrorMessage := "" |}, None)
                         | None => panic "index out of range [0]"
                         end
                   end
               end
           end
       end)%io
  end.

End WithWorld.

End openai.

(** ** Package [encoding/json]: a model of [Unmarshal] and [Marshal]

    The theorems about [AnalyzeImage] hold for every pair of functions in
    a [JSON] record.  This module gives the pair that the worked examples
    run: a parser for the JSON grammar as Go's scanner accepts it, the
    decoding of a parsed document into [chatCompletionResponse], and the
    encoding of a [chatCompletionRequest].  The text of the errors is not
    modelled (the code only prints it). *)

Module json.

#[local] Unset Elimination Schemes.
Inductive value : Type :=
| Null
| Bool (b : bool)
| Number (literal : string)
| Str (s : string)
| Array (elements : list value)
| Object (members : list (string * value)).
#[local] Set Elimination Schemes.

Definition code (c : ascii) : Z := Z.of_N (N_of_ascii c).
Definition chr (z : Z) : ascii := ascii_of_N (Z.to_N z).

Definition quote : ascii := "034"%char.
Definition backslash : ascii := "092"%char.

Definition between (lo hi : Z) (c : ascii) : bool :=
  (lo <=? code c) && (code c <=? hi).

(** Space, tab, carriage return and line feed. *)
Definition is_space (c : ascii) : bool :=
  Ascii.eqb c " "%char || Ascii.eqb c "009"%char
  || Ascii.eqb c "013"%char || Ascii.eqb c "010"%char.

Fixpoint skip_ws (s : string) : string :=
  match s with
  | String c rest => if is_space c then skip_ws rest else s
  | EmptyString => EmptyString
  end.

Definition is_digit (c : ascii) : bool := between 48 57 c.

Definition hex_value (c : ascii) : option Z :=
  if between 48 57 c then Some (code c - 48)
  else if between 97 102 c then Some (code c - 97 + 10)
  else if between 65 70 c then Some (code c - 65 + 10)
  else None.

(** [getu4]: the code unit of a [\uXXXX] escape at the head of [s]. *)
Definition getu4 (s : string) : option (Z * string) :=
  match s with
  | String b (String u (String h1 (String h2 (String h3 (String h4 rest))))) =>
      if Ascii.eqb b backslash && Ascii.eqb u "u"%char
      then
        match hex_value h1, hex_value h2, hex_value h3, hex_value h4 with
        | Some d1, Some d2, Some d3, Some d4 =>
            Some (d1 * 4096 + d2 * 256 + d3 * 16 + d4, rest)
        | _, _, _, _ => None
        end
      else None
  | _ => None
  end.

(** [unicode.ReplacementChar] in UTF-8. *)
Definition replacement : string :=
  String (chr 239) (String (chr 191) (String (chr 189) EmptyString)).

(** [utf8.EncodeRune]. *)
Definition EncodeRune (r : Z) : string :=
  if r <? 128 then String (chr r) EmptyString
  else if r <? 2048 then
    String (chr (Z.lor 192 (Z.shiftr r 6)))
      (String (chr (Z.lor 128 (Z.land r 63))) EmptyString)
  else if ((55296 <=? r) && (r <? 57344)) || (1114111 <? r) then replacement
  else if r <? 65536 then
    String (chr (Z.lor 224 (Z.shiftr r 12)))
      (String (chr (Z.lor 128 (Z.land (Z.shiftr r 6) 63)))
         (String (chr (Z.lor 128 (Z.land r 63))) EmptyString))
  else
    String (chr (Z.lor 240 (Z.shiftr r 18)))
      (String (chr (Z.lor 128 (Z.land (Z.shiftr r 12) 63)))
         (String (chr (Z.lor 128 (Z.land (Z.shiftr r 6) 63)))
            (String (chr (Z.lor 128 (Z.land r 63))) EmptyString))).

(** [utf16.DecodeRune]: the code point of a surrogate pair, if it is one. *)
Definition utf16_DecodeRune (r1 r2 : Z) : option Z :=
  if (55296 <=? r1) && (r1 <? 56320) && (56320 <=? r2) && (r2 <? 57344)
  then Some (Z.lor (Z.shiftl (r1 - 55296) 10) (r2 - 56320) + 65536)
  else None.

(** The ranges the bytes after a UTF-8 lead byte must lie in
    ([utf8.DecodeRune]'s table); [None] for a byte that starts nothing. *)
Definition utf8_tail (lead : Z) : option (list (Z * Z)) :=
  if (194 <=? lead) && (lead <=? 223) then Some [(128, 191)]
  else if lead =? 224 then Some [(160, 191); (128, 191)]
  else if (225 <=? lead) && (lead <=? 236) then Some [(128, 191); (128, 191)]
  else if lead =? 237 then Some [(128, 159); (128, 191)]
  else if (238 <=? lead) && (lead <=? 239) then Some [(128, 191); (128, 191)]
  else if lead =? 240 then Some [(144, 191); (128, 191); (128, 191)]
  else if (241 <=? lead) && (lead <=? 243) then Some [(128, 191); (128, 191); (128, 191)]
  else if lead =? 244 then Some [(128, 143); (128, 191); (128, 191)]
  else None.

Fixpoint in_ranges (ranges : list (Z * Z)) (s : string) : bool :=
  match ranges with
  | [] => true
  | (lo, hi) :: ranges' =>
      match s with
      | String c rest => between lo hi c && in_ranges ranges' rest
      | EmptyString => false
      end
  end.

(** The number of bytes that follow [lead] in a well-formed encoding
    starting there, or [None] when [utf8.DecodeRune] yields [RuneError]
    with size 1. *)
Definition utf8_more (lead : ascii) (rest : string) : option nat :=
  match utf8_tail (code lead) with
  | Some ranges => if in_ranges ranges rest then Some (List.length ranges) else None
  | None => None
  end.

(** The content of a string literal whose opening quote has been read,
    unquoted as [unquoteBytes] does, and the text after its closing quote.
    [pending] counts the bytes of a well-formed multi-byte character still
    to be copied.  [None]: the scanner rejects the literal. *)
Fixpoint unquote (fuel : nat) (pending : nat) (s : string) : option (string * string) :=
  match fuel with
  | O => None
  | S fuel' =>
      let emit (out : string) (r : option (string * string)) :=
        match r with
        | Some (str, rest) => Some (out ++ str, rest)
        | None => None
        end in
      match s with
      | EmptyString => None
      | String c rest =>
          match pending with
          | S pending' => emit (String c EmptyString) (unquote fuel' pending' rest)
          | O =>
              if Ascii.eqb c quote then Some (EmptyString, rest)
              else if Ascii.eqb c backslash then
                match rest with
                | EmptyString => None
                | String e rest' =>
                    let plain (z : Z) :=
                      emit (String (chr z) EmptyString) (unquote fuel' 0 rest') in
                    if Ascii.eqb e quote || Ascii.eqb e backslash || Ascii.eqb e "/"%char
                    then emit (String e EmptyString) (unquote fuel' 0 rest')
                    else if Ascii.eqb e "b"%char then plain 8
                    else if Ascii.eqb e "f"%char then plain 12
                    else if Ascii.eqb e "n"%char then plain 10
                    else if Ascii.eqb e "r"%char then plain 13
                    else if Ascii.eqb e "t"%char then plain 9
                    else if Ascii.eqb e "u"%char then
                      match getu4 s with
                      | None => None
                      | Some (rr, after) =>
                          if (55296 <=? rr) && (rr <? 57344) then
                            match getu4 after with
                            | Some (rr1, after1) =>
                                match utf16_DecodeRune rr rr1 with
                                | Some dec =>
                                    emit (EncodeRune dec) (unquote fuel' 0 after1)
                                | None => emit replacement (unquote fuel' 0 after)
                                end
                            | None => emit replacement (unquote fuel' 0 after)
                            end
                          else emit (EncodeRune rr) (unquote fuel' 0 after)
                      end
                    else None
                end
              else if code c <? 32 then None
              else if code c <? 128 then emit (String c EmptyString) (unquote fuel' 0 rest)
              else
                match utf8_more c rest with
                | Some more => emit (String c EmptyString) (unquote fuel' more rest)
                | None => emit replacement (unquote fuel' 0 rest)
                end
          end
      end
  end.

Definition parse_string (s : string) : option (string * string) :=
  unquote (S (String.length s)) 0 s.

Fixpoint skip_digits (s : string) : string :=
  match s with
  | String c rest => if is_digit c then skip_digits rest else s
  | EmptyString => EmptyString
  end.

Definition digits1 (s : string) : option string :=
  match s with
  | String c rest => if is_digit c then Some (skip_digits rest) else None
  | EmptyString => None
  end.

(** The text after a number literal at the head of [s]. *)
Definition scan_number (s : string) : option string :=
  let unsigned := match s with
                  | String c rest => if Ascii.eqb c "-"%char then rest else s
                  | EmptyString => s
                  end in
  let after_int :=
    match unsigned with
    | String c rest =>
        if Ascii.eqb c "0"%char then Some rest
        else if between 49 57 c then Some (skip_digits rest)
        else None
    | EmptyString => None
    end in
  let after_frac :=
    match after_int with
    | Some (String c rest) => if Ascii.eqb c "."%char then digits1 rest else after_int
    | _ => after_int
    end in
  match after_frac with
  | Some (String c rest) =>
      if Ascii.eqb c "e"%char || Ascii.eqb c "E"%char then
        match rest with
        | String sign rest' =>
            if Ascii.eqb sign "+"%char || Ascii.eqb sign "-"%char
            then digits1 rest' else digits1 rest
        | EmptyString => None
        end
      else after_frac
  | _ => after_frac
  end.

Fixpoint strip_prefix (p s : string) : option string :=
  match p with
  | EmptyString => Some s
  | String a p' =>
      match s with
      | String b s' => if Ascii.eqb a b then strip_prefix p' s' else None
      | EmptyString => None
      end
  end.

(** The text between the start of [s] and its suffix [rest]. *)
Definition consumed (s rest : string) : string :=
  String.substring 0 (String.length s - String.length rest) s.

Definition maxNestingDepth : Z := 10000.

Section Composite.
(** The parser of a value one nesting level down. *)
Variable parse_inner : string -> option (value * string).

(** The elements of an array after its first bracket, the array not being
    empty. *)
Fixpoint parse_elements (fuel : nat) (s : string) : option (list value * string) :=
  match fuel with
  | O => None
  | S fuel' =>
      match parse_inner s with
      | None => None
      | Some (v, rest) =>
          match skip_ws rest with
          | String c rest' =>
              if Ascii.eqb c ","%char then
                match parse_elements fuel' (skip_ws rest') with
                | Some (vs, rest'') => Some (v :: vs, rest'')
                | None => None
                end
              else if Ascii.eqb c "]"%char then Some ([v], rest')
              else None
          | EmptyString => None
          end
      end
  end.

(** The members of an object after its brace, the object not being
    empty. *)
Fixpoint parse_members (fuel : nat) (s : string)
  : option (list (string * value) * string) :=
  match fuel with
  | O => None
  | S fuel' =>
      match s with
      | String q rest =>
          if negb (Ascii.eqb q quote) then None
          else
            match parse_string rest with
            | None => None
            | Some (key, rest1) =>
                match skip_ws rest1 with
                | String colon rest2 =>
                    if negb (Ascii.eqb colon ":"%char) then None
                    else
                      match parse_inner (skip_ws rest2) with
                      | None => None
                      | Some (v, rest3) =>
                          match skip_ws rest3 with
                          | String c rest4 =>
                              if Ascii.eqb c ","%char then
                                match parse_members fuel' (skip_ws rest4) with
                                | Some (ms, rest5) => Some ((key, v) :: ms, rest5)
                                | None => None
                                end
                              else if Ascii.eqb c "}"%char then Some ([(key, v)], rest4)
                              else None
                          | EmptyString => None
                          end
                      end
                | EmptyString => None
                end
            end
      | EmptyString => None
      end
  end.

End Composite.

(** One value at the head of [s] (white space already skipped), at
    nesting depth [depth]. *)
Fixpoint parse_value (fuel : nat) (depth : Z) (s : string) : option (value * string) :=
  match fuel with
  | O => None
  | S fuel' =>
      match s with
      | EmptyString => None
      | String c rest =>
          if Ascii.eqb c "{"%char then
            if maxNestingDepth <? depth + 1 then None
            else
              match skip_ws rest with
              | EmptyString => None
              | String c' rest' =>
                  if Ascii.eqb c' "}"%char then Some (Object [], rest')
                  else
                    match parse_members (parse_value fuel' (depth + 1))
                            (String.length rest) (String c' rest') with
                    | Some (ms, r) => Some (Object ms, r)
                    | None => None
                    end
              end
          else if Ascii.eqb c "["%char then
            if maxNestingDepth <? depth + 1 then None
            else
              match skip_ws rest with
              | EmptyString => None
              | String c' rest' =>
                  if Ascii.eqb c' "]"%char then Some (Array [], rest')
                  else
                    match parse_elements (parse_value fuel' (depth + 1))
                            (String.length rest) (String c' rest') with
                    | Some (vs, r) => Some (Array vs, r)
                    | None => None
                    end
              end
          else if Ascii.eqb c quote then
            match parse_string rest with
            | Some (str, r) => Some (Str str, r)
            | None => None
            end
          else if Ascii.eqb c "-"%char || is_digit c then
            match scan_number s with
            | Some r => Some (Number (consumed s r), r)
            | None => None
            end
          else
            match strip_prefix "true" s, strip_prefix "false" s, strip_prefix "null" s with
            | Some r, _, _ => Some (Bool true, r)
            | _, Some r, _ => Some (Bool false, r)
            | _, _, Some r => Some (Null, r)
            | _, _, _ => None
            end
      end
  end.

(** [checkValid] and the scan of the whole input: one value, white space
    around it, nothing else.  [None] is a [SyntaxError]. *)
Definition parse (data : string) : option value :=
  match parse_value (S (String.length data)) 0 (skip_ws data) with
  | Some (v, rest) => if StdEncoding.is_empty (skip_ws rest) then Some v else None
  | None => None
  end.

(** *** Decoding into [chatCompletionResponse] *)

Import openai.

Definition upper (c : ascii) : ascii :=
  if between 97 122 c then chr (code c - 32) else c.

(** [foldName]: ASCII letters in upper case.  Outside ASCII only U+017F
    and U+212A fold to an ASCII letter (S and K); a key with any other
    character outside ASCII equals no ASCII field name, which is [None]
    here. *)
Fixpoint foldName (s : string) : option string :=
  match s with
  | EmptyString => Some EmptyString
  | String c rest =>
      if code c <? 128 then option_map (String (upper c)) (foldName rest)
      else
        match rest with
        | String c1 rest1 =>
            if (code c =? 197) && (code c1 =? 191)
            then option_map (String "S"%char) (foldName rest1)
            else
              match rest1 with
              | String c2 rest2 =>
                  if (code c =? 226) && (code c1 =? 132) && (code c2 =? 170)
                  then option_map (String "K"%char) (foldName rest2)
                  else None
              | EmptyString => None
              end
        | EmptyString => None
        end
  end.

(** The member name [key] selects the field tagged [name]. *)
Definition same_field (key name : string) : bool :=
  match foldName key, foldName name with
  | Some a, Some b => String.eqb a b
  | _, _ => false
  end.

(** A JSON value stored into a [string]: [null] leaves it as it is, any
    value but a string is an [UnmarshalTypeError] ([None]). *)
Definition decode_string (cur : string) (v : value) : option string :=
  match v with
  | Str s => Some s
  | Null => Some cur
  | _ => None
  end.

(** The members of an object, stored one after the other into the struct
    [cur]; [store] skips the names that select no field. *)
Fixpoint decode_fields {A : Type} (store : string -> value -> A -> option A)
    (members : list (string * value)) (cur : A) : option A :=
  match members with
  | [] => Some cur
  | (key, v) :: members' =>
      match store key v cur with
      | Some cur' => decode_fields store members' cur'
      | None => None
      end
  end.

(** A JSON value stored into a struct: an object fills the fields it
    names, [null] changes nothing, anything else is a type error. *)
Definition decode_struct {A : Type} (store : string -> value -> A -> option A)
    (cur : A) (v : value) : option A :=
  match v with
  | Object members => decode_fields store members cur
  | Null => Some cur
  | _ => None
  end.

Definition decode_Message
  : chatCompletionResponse.Message.t -> value -> option chatCompletionResponse.Message.t :=
  decode_struct (fun key v cur =>
    if same_field key "content"
    then option_map chatCompletionResponse.Message.mk
           (decode_string (chatCompletionResponse.Message.Content cur) v)
    else Some cur).

Definition decode_Choice
  : chatCompletionResponse.Choice.t -> value -> option chatCompletionResponse.Choice.t :=
  decode_struct (fun key v cur =>
    if same_field key "message"
    then option_map chatCompletionResponse.Choice.mk
           (decode_Message (chatCompletionResponse.Choice.Message cur) v)
    else Some cur).

Definition zero_Choice : chatCompletionResponse.Choice.t :=
  chatCompletionResponse.Choice.mk (chatCompletionResponse.Message.mk "").

(** The elements of an array stored into a slice: element [i] is decoded
    into the slice's element [i] where the slice is that long, into a zero
    value beyond.  (A key repeated three times can also bring back an
    element left in the spare capacity of the slice; the model has no
    capacity and starts such an element from zero.) *)
Fixpoint decode_elements (elements : list value) (cur : list chatCompletionResponse.Choice.t)
  : option (list chatCompletionResponse.Choice.t) :=
  match elements with
  | [] => Some []
  | e :: elements' =>
      match decode_Choice (hd zero_Choice cur) e with
      | Some c =>
          match decode_elements elements' (tl cur) with
          | Some cs => Some (c :: cs)
          | None => None
          end
      | None => None
      end
  end.

Definition decode_Choices (cur : list chatCompletionResponse.Choice.t) (v : value)
  : option (list chatCompletionResponse.Choice.t) :=
  match v with
  | Array elements => decode_elements elements cur
  | Null => Some []
  | _ => None
  end.

Definition zero_Error : chatCompletionResponse.Error.t :=
  chatCompletionResponse.Error.mk "" "" "".

Definition store_Error (key : string) (v : value) (cur : chatCompletionResponse.Error.t)
  : option chatCompletionResponse.Error.t :=
  let '(chatCompletionResponse.Error.mk m t c) := cur in
  if same_field key "message"
  then option_map (fun m' => chatCompletionResponse.Error.mk m' t c) (decode_string m v)
  else if same_field key "type"
  then option_map (fun t' => chatCompletionResponse.Error.mk m t' c) (decode_string t v)
  else if same_field key "code"
  then option_map (fun c' => chatCompletionResponse.Error.mk m t c') (decode_string c v)
  else Some cur.

(** A JSON value stored through the pointer field [Error]: [null] sets it
    to [nil]; an object fills the struct it points to, a new one if it is
    [nil]. *)
Definition decode_Error (cur : option chatCompletionResponse.Error.t) (v : value)
  : option (option chatCompletionResponse.Error.t) :=
  match v with
  | Null => Some None
  | Object members =>
      option_map Some
        (decode_fields store_Error members
           (match cur with Some e => e | None => zero_Error end))
  | _ => None
  end.

Definition decode_Response
  : chatCompletionResponse.t -> value -> option chatCompletionResponse.t :=
  decode_struct (fun key v cur =>
    if same_field key "choices"
    then option_map (fun cs => chatCompletionResponse.mk cs (chatCompletionResponse.Error cur))
           (decode_Choices (chatCompletionResponse.Choices cur) v)
    else if same_field key "error"
    then option_map (fun e => chatCompletionResponse.mk (chatCompletionResponse.Choices cur) e)
           (decode_Error (chatCompletionResponse.Error cur) v)
    else Some cur).

(** The zero value of [var chatResp chatCompletionResponse]. *)
Definition zero_Response : chatCompletionResponse.t :=
  chatCompletionResponse.mk [] None.

(** [json.Unmarshal(data, &chatResp)] on a zero [chatResp]; [None] when it
    returns an error (of syntax or of type). *)
Definition Unmarshal (data : list byte) : option chatCompletionResponse.t :=
  match parse (string_of_bytes data) with
  | Some v => decode_Response zero_Response v
  | None => None
  end.

(** *** Encoding a [chatCompletionRequest] *)

Definition hex_digit (z : Z) : ascii :=
  match String.get (Z.to_nat z) "0123456789abcdef" with
  | Some c => c
  | None => "0"%char
  end.

Definition escaped (c : ascii) : string := String backslash (String c EmptyString).

Definition u00 (c : ascii) : string :=
  String backslash
    ("u00" ++ String (hex_digit (Z.shiftr (code c) 4))
       (String (hex_digit (Z.land (code c) 15)) EmptyString)).

(** The content of a string literal as the encoder writes it, with the
    escaping for HTML that [Marshal] applies ([\b] and [\f] as Go 1.22
    and later write them).  [pending] counts the bytes of a well-formed
    multi-byte character still to be copied.  A byte that starts no
    well-formed UTF-8 encoding is written as the six characters of the
    escape for U+FFFD, as [appendString] of [encoding/json] has it; a
    library that writes the character itself differs there.  The
    examples marshal ASCII text only, and the theorems are stated for
    every [json.Marshal]. *)
Fixpoint escape (pending : nat) (s : string) : string :=
  match s with
  | EmptyString => EmptyString
  | String c rest =>
      match pending with
      | S pending' => String c (escape pending' rest)
      | O =>
          if code c <? 128 then
            (if Ascii.eqb c quote || Ascii.eqb c backslash then escaped c
             else if code c =? 8 then escaped "b"%char
             else if code c =? 12 then escaped "f"%char
             else if code c =? 10 then escaped "n"%char
             else if code c =? 13 then escaped "r"%char
             else if code c =? 9 then escaped "t"%char
             else if (code c <? 32) || Ascii.eqb c "<"%char
                     || Ascii.eqb c ">"%char || Ascii.eqb c "&"%char
             then u00 c
             else String c EmptyString) ++ escape 0 rest
          else
            match utf8_more c rest with
            | None => String backslash "ufffd" ++ escape 0 rest
            | Some more =>
                match rest with
                | String c1 (String c2 rest2) =>
                    if (code c =? 226) && (code c1 =? 128)
                       && ((code c2 =? 168) || (code c2 =? 169))
                    then String backslash "u202"
                           ++ String (hex_digit (Z.land (code c2) 15)) (escape 0 rest2)
                    else String c (escape more rest)
                | _ => String c (escape more rest)
                end
            end
      end
  end.

Definition literal (s : string) : string :=
  String quote (escape 0 s ++ String quote EmptyString).

Definition member (name : string) (text : string) : string :=
  literal name ++ ":" ++ text.

Fixpoint join (sep : string) (items : list string) : string :=
  match items with
  | [] => EmptyString
  | [x] => x
  | x :: items' => x ++ sep ++ join sep items'
  end.

Definition object (members : list string) : string := "{" ++ join "," members ++ "}".

(** A slice built by a composite literal is never [nil], so it is written
    as an array. *)
Definition array (elements : list string) : string := "[" ++ join "," elements ++ "]".

Definition encode_imageURL (u : imageURL.t) : string :=
  object [member "url" (literal (imageURL.URL u))].

(** [text] and [image_url] carry [omitempty]. *)
Definition encode_content (c : content.t) : string :=
  object
    ([member "type" (literal (content.Type_ c))]
     ++ (if String.eqb (content.Text c) "" then []
         else [member "text" (literal (content.Text c))])
     ++ (match content.ImageURL c with
         | None => []
         | Some u => [member "image_url" (encode_imageURL u)]
         end))%list.

Definition encode_message (m : message.t) : string :=
  object [member "role" (literal (message.Role m));
          member "content" (array (map encode_content (message.Content m)))].

(** [json.Marshal(chatReq)]; it has no error to return for this type. *)
Definition Marshal (r : chatCompletionRequest.t) : list byte :=
  bytes_of_string
    (object [member "model" (literal (chatCompletionRequest.Model r));
             member "messages" (array (map encode_message (chatCompletionRequest.Messages r)));
             member "max_tokens" (itoa (chatCompletionRequest.MaxTokens r))]).

(** The library as [AnalyzeImage] sees it; [reject] is the error value
    [Unmarshal] returns for a document it does not accept. *)
Definition lib (reject : list byte -> error) : JSON :=
  {| json_Marshal := fun r => inr (Marshal r);
     json_Unmarshal := fun data =>
       match Unmarshal data with
       | Some r => inr r
       | None => inl (reject data)
       end |}.

End json.

(** ** Worked examples: worlds to run the code in *)

(** JSON text written with apostrophes in place of the double quotes. *)
Fixpoint json_text (s : string) : string :=
  match s with
  | EmptyString => EmptyString
  | String c rest =>
      String (if Ascii.eqb c "'"%char then json.quote else c) (json_text rest)
  end.

(** A network on which every exchange completes, with the given status
    code and body. *)
Definition net_replying (status : Z) (body : string) : Net :=
  {| NewRequest_error := fun _ _ => None;
     client_Do := fun _ _ =>
       inr {| http.StatusCode := status; http.BodyStream := inr (bytes_of_string body) |} |}.

(** A network on which no exchange completes. *)
Definition net_down (err : error) : Net :=
  {| NewRequest_error := fun _ _ => None;
     client_Do := fun _ _ => inl err |}.

(** The JSON library of the examples.  A document that [Unmarshal]
    does not accept is reported with the text Go gives for an input that
    ends too early, the one kind of rejected input that the examples
    run.  For a document rejected for another reason Go's text is another
    one (for instance "invalid character '<' looking for beginning of
    value"), which this library does not reproduce: the examples take no
    such document, and the theorems are stated for every library. *)
Definition json_lib : openai.JSON :=
  json.lib (fun _ => libError "unexpected end of JSON input").

Definition example_request : openai.Request :=
  {| openai.APIKey := "sk-test";
     openai.APIURL := "https://api.openai.com/v1/chat/completions";
     openai.Model := "";
     openai.Prompt := "What mushroom is this?";
     openai.Base64Image := "QUJD";
     openai.MaxTokens := 0 |}.

(** A file system holding one empty file and one file of three bytes. *)
Definition example_fs : FS :=
  {| os_ReadFile := fun name =>
       if String.eqb name "empty.jpg" then inr []
       else if String.eqb name "abc.jpg" then inr (bytes_of_string "ABC")
       else inl (libError ("open " ++ name ++ ": no such file or directory")) |}.

(** ** Vocabulary of the statements *)

(** [strings.Contains s substr]. *)
Fixpoint Contains (s substr : string) : bool :=
  String.prefix substr s
  || match s with
     | String _ rest => Contains rest substr
     | EmptyString => false
     end.

(** The request passes the validation of [AnalyzeImage]. *)
Definition valid (req : openai.Request) : Prop :=
  openai.APIKey req <> "" /\ openai.APIURL req <> "" /\ openai.Prompt req <> "".

(** [json.Marshal] returns no error. *)
Definition marshals (js : openai.JSON) : Prop :=
  forall r, exists jsonBody, openai.json_Marshal js r = inr jsonBody.

(** Every exchange on the network completes, with status code [status]
    and a body that reads as [body]. *)
Definition replies (net : Net) (status : Z) (body : list byte) : Prop :=
  (forall method url, NewRequest_error net method url = None)
  /\ forall c r, client_Do net c r =
                 inr {| http.StatusCode := status; http.BodyStream := inr body |}.

(** Every call to [PostJSON] on this network returns the response [resp]
    and a nil error. *)
Definition hands_back (net : Net) (resp : httpclient.Response) : Prop :=
  forall req t, exists t',
    httpclient.PostJSON net req t = (Val (Some resp, None), t').

(** A [Response] that reports the failure [msg]. *)
Definition Failure (msg : string) : openai.Response :=
  {| openai.Success := false; openai.ErrorMessage := msg; openai.Content := "" |}.

(** A [Response] that carries the model's answer. *)
Definition Success (content : string) : openai.Response :=
  {| openai.Success := true; openai.Content := content; openai.ErrorMessage := "" |}.

(** The two kinds of part of a message. *)
Definition text_part (prompt : string) : openai.content.t :=
  {| openai.content.Type_ := "text";
     openai.content.Text := prompt;
     openai.content.ImageURL := None |}.

Definition image_part (data : string) : openai.content.t :=
  {| openai.content.Type_ := "image_url";
     openai.content.Text := "";
     openai.content.ImageURL :=
       Some {| openai.imageURL.URL := "data:image/jpeg;base64," ++ data |} |}.

(** The struct that [AnalyzeImage] builds from a request that passed the
    validation, after the defaults are set. *)
Definition built_request (req : openai.Request) : openai.chatCompletionRequest.t :=
  {| openai.chatCompletionRequest.Model :=
       if String.eqb (openai.Model req) "" then "gpt-4o" else openai.Model req;
     openai.chatCompletionRequest.Messages :=
       [ {| openai.message.Role := "user";
            openai.message.Content :=
              text_part (openai.Prompt req)
              :: (if String.eqb (openai.Base64Image req) "" then []
                  else [image_part (openai.Base64Image req)]) |} ];
     openai.chatCompletionRequest.MaxTokens :=
       if openai.MaxTokens req <=? 0 then 1000 else openai.MaxTokens req |}.

(** [AnalyzeImage] on [req] hands [chatReq] to [json.Marshal]: whatever
    the library and the network are, an error of [Marshal] on [chatReq] is
    reported without any call, and its output on [chatReq] is the body of
    the call to [PostJSON], made with the request's endpoint and
    credential. *)
Definition sends (req : openai.Request) (chatReq : openai.chatCompletionRequest.t) : Prop :=
  forall (net : Net) (js : openai.JSON) (t : Trace),
    match openai.json_Marshal js chatReq with
    | inl err =>
        openai.AnalyzeImage net js req t
        = (Val (Failure ("Failed to marshal request: " ++ Error err), None), t)
    | inr jsonBody =>
        exists r t',
          openai.AnalyzeImage net js req t
          = (r, (t ++ Call_PostJSON (openai.APIURL req) (openai.APIKey req)
                        (string_of_bytes jsonBody) :: t')%list)
    end.

(** ** Vocabulary for the exchange *)

(** [Header.Get]: the value stored under the key, or the empty string. *)
Definition Header_Get (key : string) (h : list (string * string)) : string :=
  match find (fun kv => String.eqb (fst kv) key) h with
  | Some kv => snd kv
  | None => ""
  end.

(** The client that [PostJSON] creates. *)
Definition posting_client : http.Client := {| http.Timeout := 30 * time_Second |}.

(** The request that [PostJSON] builds, headers set. *)
Definition posted_request (req : httpclient.Request) : http.Request :=
  {| http.Method := "POST";
     http.URL := httpclient.URL req;
     http.Header :=
       ("Content-Type", "application/json")
       :: (if String.eqb (httpclient.AuthToken req) "" then []
           else [("Authorization", "Bearer " ++ httpclient.AuthToken req)]);
     http.Body := httpclient.JSONBody req |}.

(** The event that records a call of [PostJSON]. *)
Definition called (req : httpclient.Request) : Event :=
  Call_PostJSON (httpclient.URL req) (httpclient.AuthToken req) (httpclient.JSONBody req).

(** The number of calls of [client.Do] in a trace. *)
Fixpoint do_calls (tr : Trace) : nat :=
  match tr with
  | [] => 0
  | Net_Do _ _ :: tr' => S (do_calls tr')
  | _ :: tr' => do_calls tr'
  end.

(** The number of response bodies closed in a trace. *)
Fixpoint closes (tr : Trace) : nat :=
  match tr with
  | [] => 0
  | Body_Close :: tr' => S (closes tr')
  | _ :: tr' => closes tr'
  end.

(** The number of calls of [PostJSON] in a trace. *)
Fixpoint calls (tr : Trace) : nat :=
  match tr with
  | [] => 0
  | Call_PostJSON _ _ _ :: tr' => S (calls tr')
  | _ :: tr' => calls tr'
  end.

(** A network on which no request can be created. *)
Definition net_rejecting (err : error) : Net :=
  {| NewRequest_error := fun _ _ => Some err;
     client_Do := fun _ _ => inl (libError "unreachable") |}.

(** A network on which every exchange completes with the given status
    code, and the body cannot be read to its end. *)
Definition net_cut (status : Z) (err : error) : Net :=
  {| NewRequest_error := fun _ _ => None;
     client_Do := fun _ _ =>
       inr {| http.StatusCode := status; http.BodyStream := inl err |} |}.

Definition example_post : httpclient.Request :=
  {| httpclient.URL := "https://api.openai.com/v1/chat/completions";
     httpclient.AuthToken := "sk-test";
     httpclient.JSONBody := "{}" |}.

(** The characters of padded standard base64: the alphabet and [=]. *)
Definition base64_char (c : ascii) : bool :=
  match StdEncoding.decodeMap c with
  | Some _ => true
  | None => Ascii.eqb c StdEncoding.padChar
  end.

Fixpoint all_chars (p : ascii -> bool) (s : string) : bool :=
  match s with
  | EmptyString => true
  | String c rest => p c && all_chars p rest
  end.

(** ** Vocabulary for the pipeline *)

(** The call of [PostJSON] that [AnalyzeImage] makes once the request is
    marshalled. *)
Definition post_of (req : openai.Request) (jsonBody : list byte) : httpclient.Request :=
  {| httpclient.URL := openai.APIURL req;
     httpclient.AuthToken := openai.APIKey req;
     httpclient.JSONBody := string_of_bytes jsonBody |}.

(** What the parsing stage of [AnalyzeImage] makes of a body. *)
Definition parsed (js : openai.JSON) (body : list byte) : openai.Response :=
  match openai.json_Unmarshal js body with
  | inl err => Failure ("Failed to parse response: " ++ Error err)
  | inr chatResp =>
      match openai.chatCompletionResponse.Error chatResp with
      | Some apiErr =>
          Failure ("OpenAI API error: " ++ openai.chatCompletionResponse.Error.Message apiErr)
      | None =>
          match openai.chatCompletionResponse.Choices chatResp with
          | [] => Failure "No response from OpenAI API"
          | choice :: _ =>
              Success (openai.chatCompletionResponse.Message.Content
                         (openai.chatCompletionResponse.Choice.Message choice))
          end
      end
  end.

(** A file system with no file at all. *)
Definition fs_empty : FS :=
  {| os_ReadFile := fun name =>
       inl (libError ("open " ++ name ++ ": no such file or directory")) |}.

(** A JSON library whose [Marshal] fails. *)
Definition json_failing (err : error) : openai.JSON :=
  {| openai.json_Marshal := fun _ => inl err;
     openai.json_Unmarshal := openai.json_Unmarshal json_lib |}.

(** ** Package [config] *)

Module config.

(** [type Config struct] *)
Record Config : Type := mkConfig {
  OpenAIAPIKey : string;
  OpenAIAPIURL : string
}.

(** The environment of the process, as [os.LookupEnv] reads it: [None]
    for a variable that is not set. *)
Definition Environ : Type := string -> option string.

(** [os.Getenv]: the empty string for a variable that is not set. *)
Definition os_Getenv (env : Environ) (key : string) : string :=
  match env key with
  | Some value => value
  | None => ""
  end.

(** What [Load] calls outside the package. *)
Record Lib : Type := mkLib {
  (** [godotenv.Load path]: the error it returns, and the environment
      it leaves (with the variables of the file added, when it could be
      read). *)
  godotenv_Load : string -> Environ -> option error * Environ;
  (** [os.IsNotExist]. *)
  os_IsNotExist : error -> bool
}.

Definition set_OpenAIAPIURL (c : Config) (url : string) : Config :=
  {| OpenAIAPIKey := OpenAIAPIKey c; OpenAIAPIURL := url |}.

Section WithLib.
Variable lib : Lib.

(** [Load], of Go type [func() (cfg *Config, err error)], on the
    environment of the process; the environment after the call is the
    second component.  [filepath.Join(".", ".env")] is [".env"]. *)
Definition Load (env : Environ) : (option Config * option error) * Environ :=
  (* Try to load .env file from current directory *)
  let envPath := ".env" in
  match godotenv_Load lib envPath env with
  | (Some err, env) =>
      (* Check if it's a file not found error *)
      if os_IsNotExist lib err
      then ((None, Some (errorString "configuration file .env not found")), env)
      else ((None, Some (wrapError ("failed to load .env file: " ++ Error err) err)), env)
  | (None, env) =>
      (* Create config struct *)
      let config := {| OpenAIAPIKey := os_Getenv env "OPENAI_API_KEY";
                       OpenAIAPIURL := os_Getenv env "OPENAI_API_URL" |} in
      (* Validate required fields *)
      if String.eqb (OpenAIAPIKey config) ""
      then ((None, Some (errorString "OPENAI_API_KEY not found in .env file")), env)
      else
        let config :=
          if String.eqb (OpenAIAPIURL config) ""
          then (* Set default URL if not provided *)
            set_OpenAIAPIURL config "https://api.openai.com/v1/chat/completions"
          else config in
        ((Some config, None), env)
  end.

End WithLib.

End config.

(** ** Package [gui] (the Fyne version)

    The widgets are modelled by the state the handlers read and write:
    the text of a label or of an entry, whether a button is enabled, the
    file of the image view.  What the handlers show or log is recorded in
    order.  The body of the goroutine that [onClassifyClicked] starts is
    a function of its own, [onClassifyClicked_go]; it is run as one
    step. *)

Module gui.

(** [type App struct], with the state of the widgets in place of the
    widgets. *)
Record App : Type := mkApp {
  ImageView_File : string;   (* app.ImageView.File *)
  UploadButton : bool;       (* enabled *)
  ClassifyButton : bool;     (* enabled *)
  ResultView : string;       (* text *)
  ResultView_enabled : bool;
  StatusLabel : string;      (* text *)
  ImagePath : string;
  Base64Image : string;
  Config : config.Config
}.

Inductive UIEvent : Type :=
| Logged (text : string)                      (* log.Printf *)
| ErrorShown (text : string)                  (* dialog.ShowError *)
| FileDialogShown (extensions : list string)  (* fileDialog.Show *)
| ImageRefreshed                              (* app.ImageView.Refresh *)
| ReaderClosed.                               (* reader.Close *)

(** The application and what it has shown so far. *)
Definition World : Type := (App * list UIEvent)%type.

(** What the handlers call outside the repository. *)
Record Toolkit : Type := mkToolkit {
  (** [fmt.Sprintf format], with no operand: the text of
      [fmt.Errorf(format)]. *)
  fmt_Sprintf0 : string -> string;
  (** [filepath.Base]. *)
  filepath_Base : string -> string
}.

Definition set_ImageView_File (a : App) (v : string) : App :=
  {| ImageView_File := v; UploadButton := UploadButton a;
     ClassifyButton := ClassifyButton a; ResultView := ResultView a;
     ResultView_enabled := ResultView_enabled a; StatusLabel := StatusLabel a;
     ImagePath := ImagePath a; Base64Image := Base64Image a; Config := Config a |}.

Definition set_UploadButton (a : App) (v : bool) : App :=
  {| ImageView_File := ImageView_File a; UploadButton := v;
     ClassifyButton := ClassifyButton a; ResultView := ResultView a;
     ResultView_enabled := ResultView_enabled a; StatusLabel := StatusLabel a;
     ImagePath := ImagePath a; Base64Image := Base64Image a; Config := Config a |}.

Definition set_ClassifyButton (a : App) (v : bool) : App :=
  {| ImageView_File := ImageView_File a; UploadButton := UploadButton a;
     ClassifyButton := v; ResultView := ResultView a;
     ResultView_enabled := ResultView_enabled a; StatusLabel := StatusLabel a;
     ImagePath := ImagePath a; Base64Image := Base64Image a; Config := Config a |}.

Definition set_ResultView (a : App) (v : string) : App :=
  {| ImageView_File := ImageView_File a; UploadButton := UploadButton a;
     ClassifyButton := ClassifyButton a; ResultView := v;
     ResultView_enabled := ResultView_enabled a; StatusLabel := StatusLabel a;
     ImagePath := ImagePath a; Base64Image := Base64Image a; Config := Config a |}.

Definition set_StatusLabel (a : App) (v : string) : App :=
  {| ImageView_File := ImageView_File a; UploadButton := UploadButton a;
     ClassifyButton := ClassifyButton a; ResultView := ResultView a;
     ResultView_enabled := ResultView_enabled a; StatusLabel := v;
     ImagePath := ImagePath a; Base64Image := Base64Image a; Config := Config a |}.

Definition set_ImagePath (a : App) (v : string) : App :=
  {| ImageView_File := ImageView_File a; UploadButton := UploadButton a;
     ClassifyButton := ClassifyButton a; ResultView := ResultView a;
     ResultView_enabled := ResultView_enabled a; StatusLabel := StatusLabel a;
     ImagePath := v; Base64Image := Base64Image a; Config := Config a |}.

Definition set_Base64Image (a : App) (v : string) : App :=
  {| ImageView_File := ImageView_File a; UploadButton := UploadButton a;
     ClassifyButton := ClassifyButton a; ResultView := ResultView a;
     ResultView_enabled := ResultView_enabled a; StatusLabel := StatusLabel a;
     ImagePath := ImagePath a; Base64Image := v; Config := Config a |}.

Definition newline : string := String "010"%char EmptyString.

(** [func getMushroomPrompt() string] *)
Definition getMushroomPrompt : string :=
  "You are an expert mycologist. Analyze this image of a mushroom and provide:"
  ++ newline ++ newline
  ++ "1. **Species Identification**: Common name and scientific name" ++ newline
  ++ "2. **Confidence Level**: How certain you are of the identification (High/Medium/Low)"
  ++ newline
  ++ "3. **Key Identifying Features**: What visual characteristics led to this identification"
  ++ newline
  ++ "4. **Edibility**: Whether this mushroom is edible, poisonous, or unknown" ++ newline
  ++ "5. **Safety Warning**: Any important safety information" ++ newline
  ++ "6. **Similar Species**: Other mushrooms it might be confused with" ++ newline
  ++ newline
  ++ "IMPORTANT: Always err on the side of caution. If uncertain, clearly state so. "
  ++ "Never encourage consumption of wild mushrooms without expert verification.".

(** [NewApp], with [createUI]: the window is created and the widgets are
    in their first state.  The error it returns is always [nil]. *)
Definition NewApp (cfg : config.Config) : App * option error :=
  ({| ImageView_File := "";
      UploadButton := true;
      ClassifyButton := false;          (* app.ClassifyButton.Disable() *)
      ResultView := "";
      ResultView_enabled := false;      (* app.ResultView.Disable() *)
      StatusLabel := "Select an image to begin";
      ImagePath := "";
      Base64Image := "";
      Config := cfg |}, None).

Section WithToolkit.
Variable tk : Toolkit.
Variable fs : FS.
Variable net : Net.
Variable js : openai.JSON.

(** [func (app *App) showError(message string, err error)] *)
Definition showError (message : string) (err : option error) (w : World) : World :=
  let '(app, shown) := w in
  let errorMsg :=
    match err with
    | Some e => message ++ ": " ++ Error e
    | None => message
    end in
  (app, (shown ++ [Logged ("Error: " ++ errorMsg);
                   ErrorShown (fmt_Sprintf0 tk errorMsg)])%list).

(** [func (app *App) loadImage(filename string) error] *)
Definition loadImage (filename : string) (w : World) : option error * World :=
  let '(app, shown) := w in
  (* Read image to base64 *)
  match base64.ReadImageToBase64 fs filename with
  | (_, Some err) => (Some err, w)
  | (base64Image, None) =>
      let app := set_Base64Image app base64Image in
      (* Load image for display *)
      let app := set_ImageView_File app filename in
      (None, (app, (shown ++ [ImageRefreshed])%list))
  end.

(** [func (app *App) onUploadClicked()]: the dialog is created and shown;
    its callback is [onUploadClicked_callback]. *)
Definition onUploadClicked (w : World) : World :=
  let '(app, shown) := w in
  (app, (shown ++ [FileDialogShown [".jpg"; ".jpeg"; ".png"; ".JPG"; ".JPEG"; ".PNG"]])%list).

(** The function that [onUploadClicked] gives to the dialog; [reader] is
    the path of the URI of the reader, [None] for a nil reader. *)
Definition onUploadClicked_callback (reader : option string) (err : option error)
    (w : World) : World :=
  match err with
  | Some e => showError "Failed to open file dialog" (Some e) w
  | None =>
      match reader with
      | None => w
      | Some filename =>
          (* defer reader.Close() *)
          let close (w : World) : World := (fst w, (snd w ++ [ReaderClosed])%list) in
          (* Load and display image *)
          match loadImage filename w with
          | (Some e, w) => close (showError "Failed to load image" (Some e) w)
          | (None, (app, shown)) =>
              let app := set_ImagePath app filename in
              let app := set_StatusLabel app ("Loaded: " ++ filepath_Base tk filename) in
              let app := set_ClassifyButton app true in
              close (app, shown)
          end
      end
  end.

(** [func (app *App) onClassifyClicked()], up to the start of the
    goroutine: the request that the goroutine is started with, if one
    is. *)
Definition onClassifyClicked (w : World) : option openai.Request * World :=
  let '(app, shown) := w in
  if String.eqb (Base64Image app) "" then
    (None, showError "No image loaded" None w)
  else
    (* Disable buttons during processing *)
    let app := set_UploadButton app false in
    let app := set_ClassifyButton app false in
    let app := set_StatusLabel app "Analyzing image..." in
    let app := set_ResultView app "Processing..." in
    (* Create OpenAI request *)
    let req :=
      {| openai.APIKey := config.OpenAIAPIKey (Config app);
         openai.APIURL := config.OpenAIAPIURL (Config app);
         openai.Model := "gpt-4o";
         openai.Prompt := getMushroomPrompt;
         openai.Base64Image := Base64Image app;
         openai.MaxTokens := 1000 |} in
    (Some req, (app, shown)).

(** The goroutine of [onClassifyClicked]. *)
Definition onClassifyClicked_go (req : openai.Request) (w : World) (t : Trace)
  : res World * Trace :=
  (* Analyze image *)
  match openai.AnalyzeImage net js req t with
  | (Panic reason, t') => (Panic reason, t')
  | (Val (resp, err), t') =>
      (* Update UI *)
      let w :=
        match err with
        | Some e =>
            let '(app, shown) := showError "Analysis failed" (Some e) w in
            let app := set_StatusLabel app "Analysis failed" in
            let app := set_ResultView app "" in
            (app, shown)
        | None =>
            if negb (openai.Success resp) then
              let '(app, shown) :=
                showError "Analysis failed"
                  (Some (errorString (fmt_Sprintf0 tk (openai.ErrorMessage resp)))) w in
              let app := set_StatusLabel app "Analysis failed" in
              let app := set_ResultView app "" in
              (app, shown)
            else
              let '(app, shown) := w in
              let app := set_ResultView app (openai.Content resp) in
              let app := set_StatusLabel app "Analysis complete" in
              (app, shown)
        end in
      (* Re-enable buttons *)
      let '(app, shown) := w in
      let app := set_UploadButton app true in
      let app := set_ClassifyButton app true in
      (Val (app, shown), t')
  end.

End WithToolkit.

End gui.

(** ** Worlds for the examples of [config] and [gui] *)

(** A [godotenv] that finds no file. *)
Definition dotenv_missing : config.Lib :=
  {| config.godotenv_Load := fun path env =>
       (Some (libError ("open " ++ path ++ ": no such file or directory")), env);
     config.os_IsNotExist := fun _ => true |}.

(** A [godotenv] whose file holds the two variables with the given
    values.  A variable that the process has set already, be it to the
    empty string, is left as it is: [godotenv.Load] does not override. *)
Definition dotenv_with (key url : string) : config.Lib :=
  {| config.godotenv_Load := fun _ env =>
       (None,
        fun name =>
          match env name with
          | Some value => Some value
          | None =>
              if String.eqb name "OPENAI_API_KEY" then Some key
              else if String.eqb name "OPENAI_API_URL" then Some url
              else None
          end);
     config.os_IsNotExist := fun _ => false |}.

(** The environment with no variable set. *)
Definition env_empty : config.Environ := fun _ => None.

Definition example_config : config.Config :=
  {| config.OpenAIAPIKey := "sk-test";
     config.OpenAIAPIURL := "https://api.openai.com/v1/chat/completions" |}.

(** A toolkit for the examples: texts with no [%] are printed as they
    are, and the paths of the examples have no directory. *)
Definition example_toolkit : gui.Toolkit :=
  {| gui.fmt_Sprintf0 := fun s => s; gui.filepath_Base := fun path => path |}.

(** ** Vocabulary for the application *)

(** The configuration has a key and an endpoint. *)
Definition usable (cfg : config.Config) : Prop :=
  config.OpenAIAPIKey cfg <> "" /\ config.OpenAIAPIURL cfg <> "".

(** The state of a run of the application: the window, the requests of
    the goroutines that were started and have not finished, and the trace
    of the network. *)
Definition Running : Type := (gui.World * list openai.Request * Trace)%type.

(** What can happen in the window; the file system, the network and the
    libraries may be different every time. *)
Inductive happens : Running -> Running -> Prop :=
| upload_clicked (w : gui.World) (pending : list openai.Request) (t : Trace) :
    happens (w, pending, t) (gui.onUploadClicked w, pending, t)
| file_chosen (tk : gui.Toolkit) (fs : FS) (reader : option string) (err : option error)
    (w : gui.World) (pending : list openai.Request) (t : Trace) :
    happens (w, pending, t) (gui.onUploadClicked_callback tk fs reader err w, pending, t)
| classify_clicked (tk : gui.Toolkit) (w : gui.World) (pending : list openai.Request)
    (t : Trace) :
    happens (w, pending, t)
      (snd (gui.onClassifyClicked tk w),
       match fst (gui.onClassifyClicked tk w) with
       | Some req => (pending ++ [req])%list
       | None => pending
       end, t)
| analysis_done (tk : gui.Toolkit) (net : Net) (js : openai.JSON) (req : openai.Request)
    (before after : list openai.Request) (w w' : gui.World) (t t' : Trace) :
    gui.onClassifyClicked_go tk net js req w t = (Val w', t') ->
    happens (w, (before ++ req :: after)%list, t) (w', (before ++ after)%list, t').

(** The states that a run started by [NewApp cfg] can be in. *)
Inductive reachable (cfg : config.Config) : Running -> Prop :=
| at_start : reachable cfg ((fst (gui.NewApp cfg), []), [], [])
| after_step (s s' : Running) : reachable cfg s -> happens s s' -> reachable cfg s'.

(** The invariant of a run of the application. *)
Definition kept (cfg : config.Config) (s : Running) : Prop :=
  let '((app, _), pending, _) := s in
  gui.Config app = cfg
  /\ (gui.ClassifyButton app = true -> gui.Base64Image app <> "")
  /\ (pending <> [] -> gui.Base64Image app <> "")
  /\ Forall (fun req =>
               openai.APIKey req = config.OpenAIAPIKey cfg
               /\ openai.APIURL req = config.OpenAIAPIURL cfg
               /\ openai.Prompt req = gui.getMushroomPrompt
               /\ openai.Base64Image req <> "") pending.

(** A run for the examples: a file is chosen, then "Classify Mushroom"
    is clicked. *)
Definition example_loaded : gui.World :=
  gui.onUploadClicked_callback example_toolkit example_fs (Some "abc.jpg") None
    (gui.onUploadClicked (fst (gui.NewApp example_config), [])).

Definition example_run : Running :=
  (snd (gui.onClassifyClicked example_toolkit example_loaded),
   match fst (gui.onClassifyClicked example_toolkit example_loaded) with
   | Some req => ([] ++ [req])%list
   | None => []
   end,
   []).

(** ** Properties *)

Lemma eqb_empty_false (s : string) : s <> "" -> String.eqb s "" = false.
Proof.
  intros H. apply String.eqb_neq. exact H.
Qed.

Ltac io_unfold :=
  unfold httpclient.PostJSON, http_Do, http_NewRequest, bind, ret, emit, panic, run in *.

(** What [PostJSON] can return: it does not panic, it logs its call first,
    and it returns a response whenever it returns no error. *)
Lemma PostJSON_returns (net : Net) (req : httpclient.Request) (t : Trace) :
  exists resp err t',
    httpclient.PostJSON net req t
    = (Val (resp, err),
       (t ++ Call_PostJSON (httpclient.URL req) (httpclient.AuthToken req)
               (httpclient.JSONBody req) :: t')%list)
    /\ (err = None -> resp <> None).
Proof.
  io_unfold.
  destruct (NewRequest_error net "POST" (httpclient.URL req)) as [e|].
  - eexists _, _, []. split; [reflexivity | discriminate].
  - destruct (client_Do net _ _) as [e|resp].
    + eexists _, _, [_]. rewrite <- app_assoc. split; [reflexivity | discriminate].
    + destruct (http.BodyStream resp) as [e|body].
      * eexists _, _, [_; _]. rewrite <- !app_assoc. split; [reflexivity | discriminate].
      * destruct (http.StatusCode resp >=? 400).
        -- eexists _, _, [_; _]. rewrite <- !app_assoc. split; [reflexivity | discriminate].
        -- eexists _, _, [_; _]. rewrite <- !app_assoc. split; [reflexivity | discriminate].
Qed.

(** [PostJSON] on a network that replies: the response carries the body
    and the status; the error is set exactly when the status is 400 or
    more. *)
Lemma PostJSON_replies (net : Net) (status : Z) (body : list byte)
    (req : httpclient.Request) (t : Trace) :
  replies net status body ->
  exists t',
    httpclient.PostJSON net req t
    = (Val (Some {| httpclient.Body := body; httpclient.StatusCode := status |},
            if status >=? 400
            then Some (errorString ("HTTP error " ++ itoa status ++ ": "
                                      ++ string_of_bytes body))
            else None), t').
Proof.
  intros [Hnew Hdo]. io_unfold.
  rewrite Hnew, Hdo. simpl.
  destruct (status >=? 400); eexists; reflexivity.
Qed.


(** Unfolds [AnalyzeImage] on a request that passed the validation, and
    splits on the three conditions that shape the payload. *)
Ltac validated req Hkey Hurl Hprompt :=
  unfold openai.AnalyzeImage;
  rewrite (eqb_empty_false _ Hkey), (eqb_empty_false _ Hurl), (eqb_empty_false _ Hprompt);
  destruct (String.eqb (openai.Model req) "") eqn:?;
  cbn [openai.MaxTokens openai.set_Model];
  destruct (openai.MaxTokens req <=? 0) eqn:?;
  cbn [openai.set_MaxTokens openai.set_Model openai.APIURL openai.APIKey openai.Model
       openai.MaxTokens openai.Prompt openai.Base64Image];
  destruct (String.eqb (openai.Base64Image req) "") eqn:?;
  cbn [negb app].

(** A request that passed the validation is marshalled as
    [built_request] describes and posted. *)
Lemma AnalyzeImage_sends (req : openai.Request) :
  valid req -> sends req (built_request req).
Proof.
  intros (Hkey & Hurl & Hprompt) net js t.
  unfold built_request.
  validated req Hkey Hurl Hprompt.
  all: destruct (openai.json_Marshal js _) as [err|jsonBody]; [reflexivity|].
  all: match goal with
       | |- context [httpclient.PostJSON ?n ?hr] =>
           destruct (PostJSON_returns n hr t) as (resp & err & t' & Hpost & _)
       end.
  all: unfold bind at 1;
    cbn [httpclient.URL httpclient.AuthToken httpclient.JSONBody] in Hpost; rewrite Hpost.
  all: destruct err as [e|]; [eexists _, _; reflexivity|].
  all: destruct resp as [hresp|]; [|eexists _, _; reflexivity].
  all: destruct (openai.json_Unmarshal js _) as [e|chatResp]; [eexists _, _; reflexivity|].
  all: destruct (openai.chatCompletionResponse.Error chatResp); [eexists _, _; reflexivity|].
  all: destruct (Nat.eqb _ 0); [eexists _, _; reflexivity|].
  all: destruct (nth_error _ 0); eexists _, _; reflexivity.
Qed.

(** On a network that replies with a status below 400, [PostJSON] hands
    the reply back. *)
Lemma replies_hands_back (net : Net) (status : Z) (body : list byte) :
  replies net status body -> status < 400 ->
  hands_back net {| httpclient.Body := body; httpclient.StatusCode := status |}.
Proof.
  intros Hnet Hstatus req t.
  destruct (PostJSON_replies net status body req t Hnet) as (t' & ->).
  replace (status >=? 400) with false by lia. exists t'. reflexivity.
Qed.

(** What the stage after the exchange does with the response that
    [PostJSON] hands back: the outcome depends on the decoded body
    alone. *)
Lemma AnalyzeImage_parses (net : Net) (js : openai.JSON) (req : openai.Request)
    (httpResp : httpclient.Response) (t : Trace) :
  valid req -> marshals js -> hands_back net httpResp ->
  exists t',
    openai.AnalyzeImage net js req t
    = (match openai.json_Unmarshal js (httpclient.Body httpResp) with
       | inl err => Val (Failure ("Failed to parse response: " ++ Error err), None)
       | inr chatResp =>
           match openai.chatCompletionResponse.Error chatResp with
           | Some apiErr =>
               Val (Failure ("OpenAI API error: "
                               ++ openai.chatCompletionResponse.Error.Message apiErr), None)
           | None =>
               match openai.chatCompletionResponse.Choices chatResp with
               | [] => Val (Failure "No response from OpenAI API", None)
               | choice :: _ =>
                   Val (Success (openai.chatCompletionResponse.Message.Content
                                   (openai.chatCompletionResponse.Choice.Message choice)),
                        None)
               end
           end
       end, t').
Proof.
  intros (Hkey & Hurl & Hprompt) Hm Hback.
  validated req Hkey Hurl Hprompt.
  all: match goal with
       | |- context [openai.json_Marshal _ ?r] =>
           destruct (Hm r) as [jsonBody ->]
       end.
  all: match goal with
       | |- context [httpclient.PostJSON _ ?hr] =>
           destruct (Hback hr t) as (t' & Hpost)
       end.
  all: unfold bind at 1; rewrite Hpost.
  all: exists t'.
  all: destruct (openai.json_Unmarshal js _) as [e|chatResp]; [reflexivity|].
  all: destruct (openai.chatCompletionResponse.Error chatResp); [reflexivity|].
  all: destruct (openai.chatCompletionResponse.Choices chatResp); reflexivity.
Qed.

(** What [AnalyzeImage] returns on a reply of status 400 or more: the
    body is quoted, not decoded. *)
Lemma AnalyzeImage_http_error (net : Net) (js : openai.JSON) (req : openai.Request)
    (status : Z) (body : list byte) (t : Trace) :
  valid req -> marshals js -> replies net status body -> 400 <= status ->
  exists t',
    openai.AnalyzeImage net js req t
    = (Val (Failure ("HTTP request failed: HTTP error " ++ itoa status ++ ": "
                       ++ string_of_bytes body), None), t').
Proof.
  intros (Hkey & Hurl & Hprompt) Hm Hnet Hstatus.
  assert (Hge : (status >=? 400) = true) by lia.
  validated req Hkey Hurl Hprompt.
  all: match goal with
       | |- context [openai.json_Marshal _ ?r] =>
           destruct (Hm r) as [jsonBody ->]
       end.
  all: match goal with
       | |- context [httpclient.PostJSON ?n ?hr] =>
           destruct (PostJSON_replies n status body hr t Hnet) as (t' & Hpost)
       end.
  all: unfold bind at 1; rewrite Hpost, Hge.
  all: exists t'; reflexivity.
Qed.

(** *** Validation comes before the network *)

(** C2. When the credential, the endpoint or the prompt of the request is
    the empty string, [AnalyzeImage] returns a failure whose message names
    a field that is indeed empty, with a nil error, and the trace it
    returns is the trace it was given: [PostJSON] is not called and no
    request is sent. *)
Theorem AnalyzeImage_rejects_before_network
    (net : Net) (js : openai.JSON) (req : openai.Request) (t : Trace) :
  openai.APIKey req = "" \/ openai.APIURL req = "" \/ openai.Prompt req = "" ->
  exists msg,
    openai.AnalyzeImage net js req t = (Val (Failure msg, None), t)
    /\ ((msg = "API key is required" /\ openai.APIKey req = "")
        \/ (msg = "API URL is required" /\ openai.APIURL req = "")
        \/ (msg = "Prompt is required" /\ openai.Prompt req = "")).
Proof.
  intros H. unfold openai.AnalyzeImage.
  destruct (String.eqb_spec (openai.APIKey req) "") as [Hkey|Hkey].
  { eexists. split; [reflexivity | left; split; [reflexivity | exact Hkey]]. }
  destruct (String.eqb_spec (openai.APIURL req) "") as [Hurl|Hurl].
  { eexists. split; [reflexivity | right; left; split; [reflexivity | exact Hurl]]. }
  destruct (String.eqb_spec (openai.Prompt req) "") as [Hprompt|Hprompt].
  { eexists. split; [reflexivity | right; right; split; [reflexivity | exact Hprompt]]. }
  exfalso. destruct H as [H | [H | H]]; contradiction.
Qed.

Lemma AnalyzeImage_rejects_before_network_witness :
  exists msg,
    openai.AnalyzeImage (net_replying 200 "{}") json_lib
      {| openai.APIKey := "sk-test"; openai.APIURL := ""; openai.Model := "gpt-4o";
         openai.Prompt := ""; openai.Base64Image := "QUJD"; openai.MaxTokens := 300 |} []
    = (Val (Failure msg, None), [])
    /\ ((msg = "API key is required" /\ "sk-test" = "")
        \/ (msg = "API URL is required" /\ "" = "")
        \/ (msg = "Prompt is required" /\ "" = "")).
Proof.
  apply (AnalyzeImage_rejects_before_network (net_replying 200 "{}") json_lib
           {| openai.APIKey := "sk-test"; openai.APIURL := ""; openai.Model := "gpt-4o";
              openai.Prompt := ""; openai.Base64Image := "QUJD"; openai.MaxTokens := 300 |} []).
  right. left. reflexivity.
Defined.

(** *** The payload *)

(** C4. For a request that passes the validation, the struct that is
    marshalled into the body of the call has one message, of role "user";
    its parts are the text part alone when [Base64Image] is empty, and the
    text part followed by one image part whose URL is
    "data:image/jpeg;base64," followed by [Base64Image] when it is not; so
    a part with an image is there exactly when [Base64Image] is not
    empty. *)
Theorem payload_image_part (req : openai.Request) :
  valid req ->
  exists chatReq parts,
    sends req chatReq
    /\ openai.chatCompletionRequest.Messages chatReq
       = [ {| openai.message.Role := "user"; openai.message.Content := parts |} ]
    /\ (openai.Base64Image req = "" -> parts = [text_part (openai.Prompt req)])
    /\ (openai.Base64Image req <> "" ->
        parts = [text_part (openai.Prompt req); image_part (openai.Base64Image req)])
    /\ ((exists p, In p parts /\ openai.content.ImageURL p <> None)
        <-> openai.Base64Image req <> "").
Proof.
  intros Hvalid.
  exists (built_request req). eexists. split; [exact (AnalyzeImage_sends req Hvalid)|].
  split; [reflexivity|].
  destruct (String.eqb_spec (openai.Base64Image req) "") as [Himg|Himg].
  - split; [reflexivity|]. split; [contradiction|]. split.
    + intros (p & [<- | []] & Hp). simpl in Hp. congruence.
    + contradiction.
  - split; [contradiction|]. split; [reflexivity|]. split.
    + intros _. exact Himg.
    + intros _. exists (image_part (openai.Base64Image req)). split.
      * right. left. reflexivity.
      * simpl. discriminate.
Qed.

Lemma payload_image_part_witness :
  exists chatReq parts,
    sends example_request chatReq
    /\ openai.chatCompletionRequest.Messages chatReq
       = [ {| openai.message.Role := "user"; openai.message.Content := parts |} ]
    /\ ("QUJD" = "" -> parts = [text_part "What mushroom is this?"])
    /\ ("QUJD" <> "" -> parts = [text_part "What mushroom is this?"; image_part "QUJD"])
    /\ ((exists p, In p parts /\ openai.content.ImageURL p <> None) <-> "QUJD" <> "").
Proof.
  apply (payload_image_part example_request). repeat split; discriminate.
Defined.

(** C8. For a request that passes the validation, the struct that is
    marshalled into the body of the call has the model "gpt-4o" when
    [Model] is empty and [Model] itself otherwise, and a token limit of
    1000 when [MaxTokens] is zero or negative and [MaxTokens] itself
    otherwise. *)
Theorem payload_defaults (req : openai.Request) :
  valid req ->
  exists chatReq,
    sends req chatReq
    /\ (openai.Model req = "" -> openai.chatCompletionRequest.Model chatReq = "gpt-4o")
    /\ (openai.Model req <> "" ->
        openai.chatCompletionRequest.Model chatReq = openai.Model req)
    /\ (openai.MaxTokens req <= 0 -> openai.chatCompletionRequest.MaxTokens chatReq = 1000)
    /\ (0 < openai.MaxTokens req ->
        openai.chatCompletionRequest.MaxTokens chatReq = openai.MaxTokens req).
Proof.
  intros Hvalid.
  exists (built_request req). split; [exact (AnalyzeImage_sends req Hvalid)|].
  unfold built_request. cbn [openai.chatCompletionRequest.Model
                             openai.chatCompletionRequest.MaxTokens].
  destruct (String.eqb_spec (openai.Model req) "") as [Hm|Hm];
    destruct (Z.leb_spec (openai.MaxTokens req) 0) as [Hn|Hn];
    repeat split; intros; try reflexivity; try contradiction; lia.
Qed.

Lemma payload_defaults_witness :
  exists chatReq,
    sends example_request chatReq
    /\ ("" = "" -> openai.chatCompletionRequest.Model chatReq = "gpt-4o")
    /\ ("" <> "" -> openai.chatCompletionRequest.Model chatReq = "")
    /\ (0 <= 0 -> openai.chatCompletionRequest.MaxTokens chatReq = 1000)
    /\ (0 < 0 -> openai.chatCompletionRequest.MaxTokens chatReq = 0).
Proof.
  apply (payload_defaults example_request). repeat split; discriminate.
Defined.

(** *** The exchange *)

(** C9. When the exchange that [PostJSON] performs completes with a status
    code of 400 or more and a body that can be read, [PostJSON] returns
    both the response, holding the body and the status code, and a
    non-nil error, whose text quotes them. *)
Theorem PostJSON_http_error
    (net : Net) (req : httpclient.Request) (c : http.Client) (hr : http.Request)
    (resp : http.Response) (body : list byte)
    (r : res (option httpclient.Response * option error)) (tr : Trace) :
  run (httpclient.PostJSON net req) = (r, tr) ->
  In (Net_Do c hr) tr ->
  client_Do net c hr = inr resp ->
  http.BodyStream resp = inr body ->
  400 <= http.StatusCode resp ->
  r = Val (Some {| httpclient.Body := body;
                   httpclient.StatusCode := http.StatusCode resp |},
           Some (errorString ("HTTP error " ++ itoa (http.StatusCode resp) ++ ": "
                                ++ string_of_bytes body))).
Proof.
  intros Hrun Hin Hdo Hbody Hstatus.
  assert (Hge : (http.StatusCode resp >=? 400) = true) by lia.
  io_unfold. cbv zeta in Hrun.
  destruct (NewRequest_error net "POST" (httpclient.URL req)) as [e|].
  { injection Hrun as <- <-. destruct Hin as [[=] | []]. }
  match type of Hrun with
  | context [client_Do net ?c' ?hr'] =>
      remember c' as client eqn:Hclient; remember hr' as httpReq eqn:HhttpReq
  end.
  assert (Hsame : Net_Do client httpReq = Net_Do c hr).
  { destruct (client_Do net client httpReq) as [e|resp'].
    - injection Hrun as <- <-. destruct Hin as [[=] | [H | []]]. exact H.
    - destruct (http.BodyStream resp') as [e|body'].
      + injection Hrun as <- <-. destruct Hin as [[=] | [H | [[=] | []]]]. exact H.
      + destruct (http.StatusCode resp' >=? 400); injection Hrun as <- <-;
          destruct Hin as [[=] | [H | [[=] | []]]]; exact H. }
  injection Hsame as Hc Hr. subst c hr.
  rewrite Hdo, Hbody, Hge in Hrun. injection Hrun as <- _. reflexivity.
Qed.

(** *** The response *)

(** C3. When [PostJSON] hands back a response with no error, and the body
    of that response decodes to a [chatCompletionResponse] with no error
    object and at least one choice, [AnalyzeImage] returns a success whose
    content is the content of the message of the first choice, however
    many choices follow. *)
Theorem AnalyzeImage_first_choice
    (net : Net) (js : openai.JSON) (req : openai.Request)
    (httpResp : httpclient.Response) (chatResp : openai.chatCompletionResponse.t)
    (choice : openai.chatCompletionResponse.Choice.t)
    (rest : list openai.chatCompletionResponse.Choice.t) (t : Trace) :
  valid req -> marshals js -> hands_back net httpResp ->
  openai.json_Unmarshal js (httpclient.Body httpResp) = inr chatResp ->
  openai.chatCompletionResponse.Error chatResp = None ->
  openai.chatCompletionResponse.Choices chatResp = choice :: rest ->
  exists t',
    openai.AnalyzeImage net js req t
    = (Val (Success (openai.chatCompletionResponse.Message.Content
                       (openai.chatCompletionResponse.Choice.Message choice)), None), t').
Proof.
  intros Hvalid Hm Hback Hdec Herr Hchoices.
  destruct (AnalyzeImage_parses net js req httpResp t Hvalid Hm Hback) as (t' & ->).
  rewrite Hdec, Herr, Hchoices. exists t'. reflexivity.
Qed.

(** C5, as the code has it. When [PostJSON] hands back a response with no
    error, and the body of that response decodes to a
    [chatCompletionResponse] with no error object and no choice,
    [AnalyzeImage] returns a failure whose message is exactly
    "No response from OpenAI API". *)
Theorem AnalyzeImage_no_choice
    (net : Net) (js : openai.JSON) (req : openai.Request)
    (httpResp : httpclient.Response) (chatResp : openai.chatCompletionResponse.t)
    (t : Trace) :
  valid req -> marshals js -> hands_back net httpResp ->
  openai.json_Unmarshal js (httpclient.Body httpResp) = inr chatResp ->
  openai.chatCompletionResponse.Error chatResp = None ->
  openai.chatCompletionResponse.Choices chatResp = [] ->
  exists t',
    openai.AnalyzeImage net js req t
    = (Val (Failure "No response from OpenAI API", None), t').
Proof.
  intros Hvalid Hm Hback Hdec Herr Hchoices.
  destruct (AnalyzeImage_parses net js req httpResp t Hvalid Hm Hback) as (t' & ->).
  rewrite Hdec, Herr, Hchoices. exists t'. reflexivity.
Qed.

(** C1, as the code has it. When the exchange completes and the body
    decodes to a [chatCompletionResponse] with an error object, then,
    whatever the choices: with a status below 400, [AnalyzeImage] returns
    a failure whose message is "OpenAI API error: " followed by the
    message of the error object; with a status of 400 or more, the body is
    not decoded and the failure's message is "HTTP request failed: HTTP
    error ", the status, ": " and the body as it was received. *)
Theorem AnalyzeImage_api_error
    (net : Net) (js : openai.JSON) (req : openai.Request) (status : Z)
    (body : list byte) (chatResp : openai.chatCompletionResponse.t)
    (apiErr : openai.chatCompletionResponse.Error.t) (t : Trace) :
  valid req -> marshals js -> replies net status body ->
  openai.json_Unmarshal js body = inr chatResp ->
  openai.chatCompletionResponse.Error chatResp = Some apiErr ->
  exists t',
    openai.AnalyzeImage net js req t
    = (Val (Failure
              (if status <? 400
               then "OpenAI API error: "
                      ++ openai.chatCompletionResponse.Error.Message apiErr
               else "HTTP request failed: HTTP error " ++ itoa status ++ ": "
                      ++ string_of_bytes body), None), t').
Proof.
  intros Hvalid Hm Hnet Hdec Herr.
  destruct (Z.ltb_spec status 400) as [Hlt|Hge].
  - destruct (AnalyzeImage_parses net js req _ t Hvalid Hm
                (replies_hands_back net status body Hnet Hlt)) as (t' & ->).
    cbn [httpclient.Body]. rewrite Hdec, Herr. exists t'. reflexivity.
  - exact (AnalyzeImage_http_error net js req status body t Hvalid Hm Hnet Hge).
Qed.

(** *** The image loader *)

(** C7. When the file read is empty, [ReadImageToBase64] returns the empty
    string and the error "file <name> is empty", and so no encoding; when
    the read fails, it returns the empty string and an error that wraps
    the error of the read. *)
Theorem ReadImageToBase64_failures (fs : FS) (filename : string) :
  (os_ReadFile fs filename = inr [] ->
   base64.ReadImageToBase64 fs filename
   = ("", Some (errorString ("file " ++ filename ++ " is empty"))))
  /\ (forall err, os_ReadFile fs filename = inl err ->
      base64.ReadImageToBase64 fs filename
      = ("", Some (wrapError ("failed to read file " ++ filename ++ ": " ++ Error err) err))).
Proof.
  unfold base64.ReadImageToBase64. split.
  - intros ->. reflexivity.
  - intros err ->. reflexivity.
Qed.

(** *** Base64 *)

Section Base64.
Import StdEncoding.

Lemma sextet_range (x : Z) : 0 <= Z.land x 63 < 64.
Proof.
  change 63 with (Z.ones 6). rewrite Z.land_ones by lia.
  apply Z.mod_pos_bound. lia.
Qed.

(** The decoding table inverts the alphabet. *)
Lemma decodeMap_encode (v : Z) : 0 <= v < 64 -> decodeMap (encode v) = Some v.
Proof.
  intros Hv. rewrite <- (Z2Nat.id v) by lia.
  assert (Hn : (Z.to_nat v < 64)%nat) by lia.
  revert Hn. generalize (Z.to_nat v). intros n Hn.
  do 64 (destruct n as [|n]; [reflexivity|]). lia.
Qed.

Lemma decode_from_sextet (v : Z) (rest : string) (dbuf : list Z) :
  decode_from (String (encode (Z.land v 63)) rest) dbuf
  = match dbuf with
    | [d0; d1; d2] =>
        let val := quantum d0 d1 d2 (Z.land v 63) in
        match decode_from rest [] with
        | Some tl =>
            Some (to_byte (Z.shiftr val 16) :: to_byte (Z.shiftr val 8) :: to_byte val :: tl)
        | None => None
        end
    | _ => decode_from rest (dbuf ++ [Z.land v 63])%list
    end.
Proof.
  cbn [decode_from]. rewrite (decodeMap_encode _ (sextet_range v)). reflexivity.
Qed.

Lemma byte_mask (b : byte) : uint b = Z.land (uint b) (Z.ones 8).
Proof.
  unfold uint. rewrite Z.land_ones by lia.
  symmetry. apply Z.mod_small. apply byte.unsigned_range.
Qed.

Lemma to_byte_mask (v : Z) (b : byte) :
  Z.land v (Z.ones 8) = uint b -> to_byte v = b.
Proof.
  intros H. apply byte.unsigned_inj. unfold to_byte.
  rewrite byte.unsigned_of_Z. unfold byte.wrap.
  rewrite <- Z.land_ones by lia. exact H.
Qed.

(** Four sextets cut from three bytes make the three bytes again. *)
Lemma quantum_of_three (x y z : Z) :
  let val :=
    Z.lor (Z.lor (Z.shiftl (Z.land x (Z.ones 8)) 16) (Z.shiftl (Z.land y (Z.ones 8)) 8))
      (Z.land z (Z.ones 8)) in
  quantum (Z.land (Z.shiftr val 18) (Z.ones 6)) (Z.land (Z.shiftr val 12) (Z.ones 6))
    (Z.land (Z.shiftr val 6) (Z.ones 6)) (Z.land val (Z.ones 6)) = val.
Proof.
  intros val. subst val. unfold quantum. prove_Zeq_bitwise.
Qed.

Lemma bytes_of_three (x y z : Z) :
  let val :=
    Z.lor (Z.lor (Z.shiftl (Z.land x (Z.ones 8)) 16) (Z.shiftl (Z.land y (Z.ones 8)) 8))
      (Z.land z (Z.ones 8)) in
  Z.land (Z.shiftr val 16) (Z.ones 8) = Z.land x (Z.ones 8)
  /\ Z.land (Z.shiftr val 8) (Z.ones 8) = Z.land y (Z.ones 8)
  /\ Z.land val (Z.ones 8) = Z.land z (Z.ones 8).
Proof.
  intros val. subst val. split; [|split]; prove_Zeq_bitwise.
Qed.

Lemma bytes_of_two (x y : Z) :
  let val := Z.lor (Z.shiftl (Z.land x (Z.ones 8)) 16) (Z.shiftl (Z.land y (Z.ones 8)) 8) in
  let val' :=
    quantum (Z.land (Z.shiftr val 18) (Z.ones 6)) (Z.land (Z.shiftr val 12) (Z.ones 6))
      (Z.land (Z.shiftr val 6) (Z.ones 6)) 0 in
  Z.land (Z.shiftr val' 16) (Z.ones 8) = Z.land x (Z.ones 8)
  /\ Z.land (Z.shiftr val' 8) (Z.ones 8) = Z.land y (Z.ones 8).
Proof.
  intros val val'. subst val val'. unfold quantum. split; prove_Zeq_bitwise.
Qed.

Lemma bytes_of_one (x : Z) :
  let val := Z.shiftl (Z.land x (Z.ones 8)) 16 in
  let val' :=
    quantum (Z.land (Z.shiftr val 18) (Z.ones 6)) (Z.land (Z.shiftr val 12) (Z.ones 6)) 0 0 in
  Z.land (Z.shiftr val' 16) (Z.ones 8) = Z.land x (Z.ones 8).
Proof.
  intros val val'. subst val val'. unfold quantum. prove_Zeq_bitwise.
Qed.

(** The quantum decoded from the characters of three bytes, of two bytes
    and of one byte holds these bytes. *)
Lemma three_bytes (a b c : byte) :
  let val := Z.lor (Z.lor (Z.shiftl (uint a) 16) (Z.shiftl (uint b) 8)) (uint c) in
  let val' :=
    quantum (Z.land (Z.shiftr val 18) 63) (Z.land (Z.shiftr val 12) 63)
      (Z.land (Z.shiftr val 6) 63) (Z.land val 63) in
  to_byte (Z.shiftr val' 16) = a /\ to_byte (Z.shiftr val' 8) = b /\ to_byte val' = c.
Proof.
  cbv zeta.
  destruct (bytes_of_three (uint a) (uint b) (uint c)) as (Ha & Hb & Hc).
  split; [|split]; apply to_byte_mask;
    rewrite (byte_mask a), (byte_mask b), (byte_mask c); change 63 with (Z.ones 6);
    rewrite quantum_of_three; assumption.
Qed.

Lemma two_bytes (a b : byte) :
  let val := Z.lor (Z.shiftl (uint a) 16) (Z.shiftl (uint b) 8) in
  let val' :=
    quantum (Z.land (Z.shiftr val 18) 63) (Z.land (Z.shiftr val 12) 63)
      (Z.land (Z.shiftr val 6) 63) 0 in
  to_byte (Z.shiftr val' 16) = a /\ to_byte (Z.shiftr val' 8) = b.
Proof.
  cbv zeta.
  destruct (bytes_of_two (uint a) (uint b)) as (Ha & Hb).
  split; apply to_byte_mask;
    rewrite (byte_mask a), (byte_mask b); change 63 with (Z.ones 6); assumption.
Qed.

Lemma one_byte (a : byte) :
  let val := Z.shiftl (uint a) 16 in
  let val' := quantum (Z.land (Z.shiftr val 18) 63) (Z.land (Z.shiftr val 12) 63) 0 0 in
  to_byte (Z.shiftr val' 16) = a.
Proof.
  cbv zeta. pose proof (bytes_of_one (uint a)) as Ha.
  apply to_byte_mask. rewrite (byte_mask a). change 63 with (Z.ones 6).
  exact Ha.
Qed.

(** Induction on a byte sequence, three bytes at a time. *)
Lemma bytes_ind3 (P : list byte -> Prop) :
  P [] ->
  (forall a, P [a]) ->
  (forall a b, P [a; b]) ->
  (forall a b c rest, P rest -> P (a :: b :: c :: rest)) ->
  forall src, P src.
Proof.
  intros H0 H1 H2 H3.
  fix IH 1. intros [|a [|b [|c rest]]].
  - exact H0.
  - apply H1.
  - apply H2.
  - apply H3. apply IH.
Qed.

Lemma decode_from_pad2 (d0 d1 : Z) :
  decode_from (String padChar (String padChar EmptyString)) [d0; d1]
  = Some [to_byte (Z.shiftr (quantum d0 d1 0 0) 16)].
Proof.
  reflexivity.
Qed.

Lemma decode_from_pad1 (d0 d1 d2 : Z) :
  decode_from (String padChar EmptyString) [d0; d1; d2]
  = Some [to_byte (Z.shiftr (quantum d0 d1 d2 0) 16);
          to_byte (Z.shiftr (quantum d0 d1 d2 0) 8)].
Proof.
  reflexivity.
Qed.

(** Decoding what [EncodeToString] wrote gives the bytes back. *)
Lemma DecodeString_EncodeToString (src : list byte) :
  DecodeString (EncodeToString src) = Some src.
Proof.
  unfold DecodeString. induction src as [|a|a b|a b c rest IH] using bytes_ind3.
  - reflexivity.
  - cbn [EncodeToString]. rewrite !decode_from_sextet. cbn [app].
    rewrite decode_from_pad2.
    pose proof (one_byte a) as Ha. cbv zeta in Ha. rewrite Ha. reflexivity.
  - cbn [EncodeToString]. rewrite !decode_from_sextet. cbn [app].
    rewrite decode_from_pad1.
    pose proof (two_bytes a b) as H. cbv zeta in H. destruct H as [-> ->]. reflexivity.
  - cbn [EncodeToString]. rewrite !decode_from_sextet. cbn [app]. cbv zeta.
    rewrite IH.
    pose proof (three_bytes a b c) as H. cbv zeta in H. destruct H as (-> & -> & ->).
    reflexivity.
Qed.

End Base64.

(** C6. For every byte sequence that is not empty, decoding with the
    standard padded base64 of RFC 4648 the string that [EncodeData]
    produced gives the sequence back. *)
Theorem EncodeData_round_trip (B : list byte) :
  B <> [] -> StdEncoding.DecodeString (base64.EncodeData B) = Some B.
Proof.
  intros _. apply DecodeString_EncodeToString.
Qed.

(** [sends] names one struct: two structs that [AnalyzeImage] hands to
    [json.Marshal] on the same request are the same. *)
Lemma chatCompletionRequest_eq_dec (a b : openai.chatCompletionRequest.t) :
  {a = b} + {a <> b}.
Proof.
  assert (Hurl : forall x y : openai.imageURL.t, {x = y} + {x <> y})
    by (decide equality; apply string_dec).
  assert (Hopt : forall x y : option openai.imageURL.t, {x = y} + {x <> y})
    by (decide equality).
  assert (Hcontent : forall x y : openai.content.t, {x = y} + {x <> y})
    by (decide equality; apply string_dec).
  assert (Hmessage : forall x y : openai.message.t, {x = y} + {x <> y})
    by (decide equality; [apply list_eq_dec; exact Hcontent | apply string_dec]).
  decide equality;
    [apply Z.eq_dec | apply list_eq_dec; exact Hmessage | apply string_dec].
Qed.

Lemma sends_unique (req : openai.Request) (a b : openai.chatCompletionRequest.t) :
  sends req a -> sends req b -> a = b.
Proof.
  intros Ha Hb.
  destruct (chatCompletionRequest_eq_dec b a) as [Heq|Hne]; [symmetry; exact Heq|].
  exfalso.
  set (js := {| openai.json_Marshal := fun r =>
                  if chatCompletionRequest_eq_dec r a
                  then inl (libError "unsupported type") else inr [];
                openai.json_Unmarshal := fun _ => inl (libError "unexpected end of JSON input") |}).
  specialize (Ha (net_down (libError "no route to host")) js []).
  specialize (Hb (net_down (libError "no route to host")) js []).
  cbn [openai.json_Marshal js] in Ha, Hb.
  destruct (chatCompletionRequest_eq_dec a a) as [_|Hn]; [|apply Hn; reflexivity].
  destruct (chatCompletionRequest_eq_dec b a) as [Heq|_]; [apply Hne; exact Heq|].
  destruct Hb as (r & t' & Hb). rewrite Ha in Hb. discriminate Hb.
Qed.

(** *** Worked examples *)

(** The request of the examples is posted as this JSON text. *)
Example example_request_body :
  fst (run (openai.AnalyzeImage (net_down (libError "no route to host")) json_lib
              example_request))
  = Val (Failure "HTTP request failed: failed to perform request: no route to host", None)
  /\ hd_error (snd (run (openai.AnalyzeImage (net_down (libError "no route to host"))
                           json_lib example_request)))
     = Some (Call_PostJSON "https://api.openai.com/v1/chat/completions" "sk-test"
               (json_text
                  ("{'model':'gpt-4o','messages':[{'role':'user','content':["
                   ++ "{'type':'text','text':'What mushroom is this?'},"
                   ++ "{'type':'image_url','image_url':{'url':'data:image/jpeg;base64,QUJD'}}"
                   ++ "]}],'max_tokens':1000}"))).
Proof.
  split; vm_compute; reflexivity.
Qed.

(** A body that ends too early is a failure of the parsing stage. *)
Example example_truncated_body :
  fst (run (openai.AnalyzeImage (net_replying 200 (json_text "{'choices':[")) json_lib
              example_request))
  = Val (Failure "Failed to parse response: unexpected end of JSON input", None).
Proof.
  vm_compute. reflexivity.
Qed.

Lemma AnalyzeImage_first_choice_witness :
  exists t',
    openai.AnalyzeImage
      (net_replying 200 (json_text "{'choices':[{'message':{'content':'Amanita'}},{}]}"))
      json_lib example_request []
    = (Val (Success "Amanita", None), t').
Proof.
  apply (AnalyzeImage_first_choice
           (net_replying 200 (json_text "{'choices':[{'message':{'content':'Amanita'}},{}]}"))
           json_lib example_request
           {| httpclient.Body :=
                bytes_of_string
                  (json_text "{'choices':[{'message':{'content':'Amanita'}},{}]}");
              httpclient.StatusCode := 200 |}
           {| openai.chatCompletionResponse.Choices :=
                [ openai.chatCompletionResponse.Choice.mk
                    (openai.chatCompletionResponse.Message.mk "Amanita");
                  json.zero_Choice ];
              openai.chatCompletionResponse.Error := None |}
           (openai.chatCompletionResponse.Choice.mk
              (openai.chatCompletionResponse.Message.mk "Amanita"))
           [json.zero_Choice] []).
  - repeat split; discriminate.
  - intros r. eexists. reflexivity.
  - intros req t. eexists. vm_compute. reflexivity.
  - vm_compute. reflexivity.
  - reflexivity.
  - reflexivity.
Defined.

Lemma AnalyzeImage_no_choice_witness :
  exists t',
    openai.AnalyzeImage (net_replying 200 (json_text "{'choices':[]}"))
      json_lib example_request []
    = (Val (Failure "No response from OpenAI API", None), t').
Proof.
  apply (AnalyzeImage_no_choice
           (net_replying 200 (json_text "{'choices':[]}"))
           json_lib example_request
           {| httpclient.Body := bytes_of_string (json_text "{'choices':[]}");
              httpclient.StatusCode := 200 |}
           json.zero_Response []).
  - repeat split; discriminate.
  - intros r. eexists. reflexivity.
  - intros req t. eexists. vm_compute. reflexivity.
  - vm_compute. reflexivity.
  - reflexivity.
  - reflexivity.
Defined.

(** C5 as the specification words it fails: on the body of its own
    example, with status 200, the message is "No response from OpenAI
    API", which is not "No response from API". *)
Lemma AnalyzeImage_no_choice_counterexample :
  openai.json_Unmarshal json_lib (bytes_of_string (json_text "{'choices':[]}"))
  = inr {| openai.chatCompletionResponse.Choices := [];
           openai.chatCompletionResponse.Error := None |}
  /\ exists resp t',
       run (openai.AnalyzeImage (net_replying 200 (json_text "{'choices':[]}"))
              json_lib example_request)
       = (Val (resp, None), t')
       /\ openai.Success resp = false
       /\ openai.ErrorMessage resp = "No response from OpenAI API"
       /\ openai.ErrorMessage resp <> "No response from API".
Proof.
  split; [vm_compute; reflexivity|].
  eexists _, _. split; [vm_compute; reflexivity|].
  split; [reflexivity|]. split; [reflexivity|]. discriminate.
Qed.

Lemma AnalyzeImage_api_error_witness :
  (exists t',
     openai.AnalyzeImage
       (net_replying 200 (json_text "{'error':{'message':'bad key'},'choices':[{}]}"))
       json_lib example_request []
     = (Val (Failure "OpenAI API error: bad key", None), t'))
  /\ (exists t',
        openai.AnalyzeImage
          (net_replying 401 (json_text "{'error':{'message':'bad key'},'choices':[{}]}"))
          json_lib example_request []
        = (Val (Failure
                  ("HTTP request failed: HTTP error 401: "
                   ++ json_text "{'error':{'message':'bad key'},'choices':[{}]}"), None), t')).
Proof.
  split.
  - apply (AnalyzeImage_api_error
             (net_replying 200 (json_text "{'error':{'message':'bad key'},'choices':[{}]}"))
             json_lib example_request 200
             (bytes_of_string (json_text "{'error':{'message':'bad key'},'choices':[{}]}"))
             {| openai.chatCompletionResponse.Choices := [json.zero_Choice];
                openai.chatCompletionResponse.Error :=
                  Some (openai.chatCompletionResponse.Error.mk "bad key" "" "") |}
             (openai.chatCompletionResponse.Error.mk "bad key" "" "") []).
    + repeat split; discriminate.
    + intros r. eexists. reflexivity.
    + split; intros; reflexivity.
    + vm_compute. reflexivity.
    + reflexivity.
  - apply (AnalyzeImage_api_error
             (net_replying 401 (json_text "{'error':{'message':'bad key'},'choices':[{}]}"))
             json_lib example_request 401
             (bytes_of_string (json_text "{'error':{'message':'bad key'},'choices':[{}]}"))
             {| openai.chatCompletionResponse.Choices := [json.zero_Choice];
                openai.chatCompletionResponse.Error :=
                  Some (openai.chatCompletionResponse.Error.mk "bad key" "" "") |}
             (openai.chatCompletionResponse.Error.mk "bad key" "" "") []).
    + repeat split; discriminate.
    + intros r. eexists. reflexivity.
    + split; intros; reflexivity.
    + vm_compute. reflexivity.
    + reflexivity.
Defined.

(** C1 as the specification words it fails: with status 401 and an error
    object whose message holds a quotation mark, the body is not decoded;
    the failure quotes the body as received, in which the quotation marks
    are escaped, so the message of the failure does not contain the
    message of the error object. *)
Lemma AnalyzeImage_api_error_counterexample :
  exists apiErr resp t',
    openai.json_Unmarshal json_lib
      (bytes_of_string (json_text "{'error':{'message':'bad \'key\''}}"))
    = inr {| openai.chatCompletionResponse.Choices := [];
             openai.chatCompletionResponse.Error := Some apiErr |}
    /\ openai.chatCompletionResponse.Error.Message apiErr = json_text "bad 'key'"
    /\ run (openai.AnalyzeImage
              (net_replying 401 (json_text "{'error':{'message':'bad \'key\''}}"))
              json_lib example_request)
       = (Val (resp, None), t')
    /\ openai.ErrorMessage resp
       = "HTTP request failed: HTTP error 401: "
           ++ json_text "{'error':{'message':'bad \'key\''}}"
    /\ Contains (openai.ErrorMessage resp)
         (openai.chatCompletionResponse.Error.Message apiErr) = false.
Proof.
  eexists _, _, _.
  split; [vm_compute; reflexivity|].
  split; [vm_compute; reflexivity|].
  split; [vm_compute; reflexivity|].
  split; vm_compute; reflexivity.
Qed.

Lemma PostJSON_http_error_witness :
  fst (run (httpclient.PostJSON (net_replying 401 "denied")
              {| httpclient.URL := "https://api.openai.com/v1/chat/completions";
                 httpclient.AuthToken := "sk-test";
                 httpclient.JSONBody := "{}" |}))
  = Val (Some {| httpclient.Body := bytes_of_string "denied";
                 httpclient.StatusCode := 401 |},
         Some (errorString ("HTTP error " ++ itoa 401 ++ ": "
                              ++ string_of_bytes (bytes_of_string "denied")))).
Proof.
  apply (PostJSON_http_error (net_replying 401 "denied")
           {| httpclient.URL := "https://api.openai.com/v1/chat/completions";
              httpclient.AuthToken := "sk-test";
              httpclient.JSONBody := "{}" |}
           {| http.Timeout := 30 * time_Second |}
           {| http.Method := "POST";
              http.URL := "https://api.openai.com/v1/chat/completions";
              http.Header := [("Content-Type", "application/json");
                              ("Authorization", "Bearer sk-test")];
              http.Body := "{}" |}
           {| http.StatusCode := 401; http.BodyStream := inr (bytes_of_string "denied") |}
           (bytes_of_string "denied")
           _
           (snd (run (httpclient.PostJSON (net_replying 401 "denied")
                        {| httpclient.URL := "https://api.openai.com/v1/chat/completions";
                           httpclient.AuthToken := "sk-test";
                           httpclient.JSONBody := "{}" |})))).
  - reflexivity.
  - vm_compute. right. left. reflexivity.
  - reflexivity.
  - reflexivity.
  - simpl. lia.
Defined.

Lemma ReadImageToBase64_failures_witness :
  base64.ReadImageToBase64 example_fs "empty.jpg"
  = ("", Some (errorString "file empty.jpg is empty"))
  /\ base64.ReadImageToBase64 example_fs "missing.jpg"
     = ("", Some (wrapError
                    "failed to read file missing.jpg: open missing.jpg: no such file or directory"
                    (libError "open missing.jpg: no such file or directory"))).
Proof.
  split.
  - apply (proj1 (ReadImageToBase64_failures example_fs "empty.jpg")). reflexivity.
  - apply (proj2 (ReadImageToBase64_failures example_fs "missing.jpg")
             (libError "open missing.jpg: no such file or directory")).
    reflexivity.
Defined.

Lemma EncodeData_round_trip_witness :
  StdEncoding.DecodeString (base64.EncodeData (bytes_of_string "ABC"))
  = Some (bytes_of_string "ABC").
Proof.
  apply (EncodeData_round_trip (bytes_of_string "ABC")). discriminate.
Defined.

(** The examples of base64 in RFC 4648, section 10. *)
Example rfc4648_vectors :
  map (fun s => base64.EncodeData (bytes_of_string s))
    ["f"; "fo"; "foo"; "foob"; "fooba"; "foobar"]
  = ["Zg=="; "Zm8="; "Zm9v"; "Zm9vYg=="; "Zm9vYmE="; "Zm9vYmFy"].
Proof.
  vm_compute. reflexivity.
Qed.

(** ** More on [PostJSON] *)

(** Every run of [PostJSON], spelled out: the call is logged; a request
    that cannot be created ends the run; otherwise [client.Do] is called
    once, on [posting_client] with [posted_request], and the body of a
    response is closed after it is read. *)
Lemma PostJSON_run (net : Net) (req : httpclient.Request) (t : Trace) :
  httpclient.PostJSON net req t
  = match NewRequest_error net "POST" (httpclient.URL req) with
    | Some err =>
        (Val (None, Some (wrapError ("failed to create request: " ++ Error err) err)),
         (t ++ [called req])%list)
    | None =>
        match client_Do net posting_client (posted_request req) with
        | inl err =>
            (Val (None, Some (wrapError ("failed to perform request: " ++ Error err) err)),
             (t ++ [called req; Net_Do posting_client (posted_request req)])%list)
        | inr resp =>
            (Val (match http.BodyStream resp with
                  | inl err =>
                      (None,
                       Some (wrapError ("failed to read response body: " ++ Error err) err))
                  | inr body =>
                      (Some {| httpclient.Body := body;
                               httpclient.StatusCode := http.StatusCode resp |},
                       if http.StatusCode resp >=? 400
                       then Some (errorString
                                    ("HTTP error " ++ itoa (http.StatusCode resp) ++ ": "
                                       ++ string_of_bytes body))
                       else None)
                  end),
             (t ++ [called req; Net_Do posting_client (posted_request req); Body_Close])%list)
        end
    end.
Proof.
  io_unfold. unfold called, posting_client, posted_request.
  destruct (NewRequest_error net "POST" (httpclient.URL req)) as [e|]; [reflexivity|].
  cbv zeta. cbn [http.Header http.set_Header http.Method http.URL http.Body].
  destruct (String.eqb (httpclient.AuthToken req) ""); cbn [negb];
    cbn [http.Header http.set_Header http.Method http.URL http.Body].
  all: unfold http.Header_Set; cbn [filter fst String.eqb Ascii.eqb Bool.eqb negb app].
  all: destruct (client_Do net _ _) as [e|resp]; rewrite <- ?app_assoc; [reflexivity|].
  all: destruct (http.BodyStream resp) as [e|body]; rewrite <- ?app_assoc; [reflexivity|].
  all: destruct (http.StatusCode resp >=? 400); rewrite <- ?app_assoc; reflexivity.
Qed.

(** X1. When [http.NewRequest] fails, [PostJSON] returns a nil response
    and an error that wraps the cause behind "failed to create request: ";
    the call is the only event: nothing is sent. *)
Theorem PostJSON_create_failure
    (net : Net) (req : httpclient.Request) (err : error) (t : Trace) :
  NewRequest_error net "POST" (httpclient.URL req) = Some err ->
  httpclient.PostJSON net req t
  = (Val (None, Some (wrapError ("failed to create request: " ++ Error err) err)),
     (t ++ [called req])%list).
Proof.
  intros H. rewrite PostJSON_run, H. reflexivity.
Qed.

Lemma PostJSON_create_failure_witness :
  httpclient.PostJSON (net_rejecting (libError "parse ::: missing protocol scheme"))
    {| httpclient.URL := "::"; httpclient.AuthToken := "sk-test";
       httpclient.JSONBody := "{}" |} []
  = (Val (None,
          Some (wrapError
                  ("failed to create request: "
                   ++ Error (libError "parse ::: missing protocol scheme"))
                  (libError "parse ::: missing protocol scheme"))),
     ([] ++ [called {| httpclient.URL := "::"; httpclient.AuthToken := "sk-test";
                       httpclient.JSONBody := "{}" |}])%list).
Proof.
  apply (PostJSON_create_failure (net_rejecting (libError "parse ::: missing protocol scheme"))
           {| httpclient.URL := "::"; httpclient.AuthToken := "sk-test";
              httpclient.JSONBody := "{}" |}
           (libError "parse ::: missing protocol scheme") []).
  reflexivity.
Defined.

(** X2. When [client.Do] returns an error (no connection, time-out, ...),
    [PostJSON] returns a nil response and an error that wraps the cause
    behind "failed to perform request: "; [client.Do] was called once,
    with the request that [PostJSON] built, and no body is closed (there
    is none).  How many requests the client put on the wire during that
    call, none or several, is not said. *)
Theorem PostJSON_transport_failure
    (net : Net) (req : httpclient.Request) (err : error) (t : Trace) :
  NewRequest_error net "POST" (httpclient.URL req) = None ->
  client_Do net posting_client (posted_request req) = inl err ->
  httpclient.PostJSON net req t
  = (Val (None, Some (wrapError ("failed to perform request: " ++ Error err) err)),
     (t ++ [called req; Net_Do posting_client (posted_request req)])%list).
Proof.
  intros Hnew Hdo. rewrite PostJSON_run, Hnew, Hdo. reflexivity.
Qed.

Lemma PostJSON_transport_failure_witness :
  httpclient.PostJSON (net_down (libError "dial tcp: i/o timeout")) example_post []
  = (Val (None,
          Some (wrapError
                  ("failed to perform request: " ++ Error (libError "dial tcp: i/o timeout"))
                  (libError "dial tcp: i/o timeout"))),
     ([] ++ [called example_post; Net_Do posting_client (posted_request example_post)])%list).
Proof.
  apply (PostJSON_transport_failure (net_down (libError "dial tcp: i/o timeout"))
           example_post (libError "dial tcp: i/o timeout") []).
  - reflexivity.
  - reflexivity.
Defined.

(** X3. When the exchange completes and the body cannot be read to its
    end, [PostJSON] returns a nil response, whatever the status code was,
    and an error that wraps the cause behind "failed to read response
    body: "; the body is closed. *)
Theorem PostJSON_read_failure
    (net : Net) (req : httpclient.Request) (resp : http.Response) (err : error)
    (t : Trace) :
  NewRequest_error net "POST" (httpclient.URL req) = None ->
  client_Do net posting_client (posted_request req) = inr resp ->
  http.BodyStream resp = inl err ->
  httpclient.PostJSON net req t
  = (Val (None, Some (wrapError ("failed to read response body: " ++ Error err) err)),
     (t ++ [called req; Net_Do posting_client (posted_request req); Body_Close])%list).
Proof.
  intros Hnew Hdo Hbody. rewrite PostJSON_run, Hnew, Hdo, Hbody. reflexivity.
Qed.

Lemma PostJSON_read_failure_witness :
  httpclient.PostJSON (net_cut 200 (libError "unexpected EOF")) example_post []
  = (Val (None,
          Some (wrapError
                  ("failed to read response body: " ++ Error (libError "unexpected EOF"))
                  (libError "unexpected EOF"))),
     ([] ++ [called example_post; Net_Do posting_client (posted_request example_post);
             Body_Close])%list).
Proof.
  apply (PostJSON_read_failure (net_cut 200 (libError "unexpected EOF")) example_post
           {| http.StatusCode := 200; http.BodyStream := inl (libError "unexpected EOF") |}
           (libError "unexpected EOF") []).
  - reflexivity.
  - reflexivity.
  - reflexivity.
Defined.

(** X4. [PostJSON] returns a nil error in one case only: the request was
    created, the exchange completed, the body was read and the status code
    is below 400; the response then holds that body and that status
    code. *)
Theorem PostJSON_nil_error_iff
    (net : Net) (req : httpclient.Request) (t : Trace)
    (resp : option httpclient.Response) (tr : Trace) :
  httpclient.PostJSON net req t = (Val (resp, None), tr)
  <-> (NewRequest_error net "POST" (httpclient.URL req) = None
       /\ exists hresp body,
            client_Do net posting_client (posted_request req) = inr hresp
            /\ http.BodyStream hresp = inr body
            /\ http.StatusCode hresp < 400
            /\ resp = Some {| httpclient.Body := body;
                              httpclient.StatusCode := http.StatusCode hresp |}
            /\ tr = (t ++ [called req; Net_Do posting_client (posted_request req);
                           Body_Close])%list).
Proof.
  rewrite PostJSON_run. split.
  - destruct (NewRequest_error net "POST" (httpclient.URL req)) as [e|]; [discriminate|].
    destruct (client_Do net posting_client (posted_request req)) as [e|hresp];
      [discriminate|].
    destruct (http.BodyStream hresp) as [e|body] eqn:Hbody; [discriminate|].
    destruct (Z.geb_spec (http.StatusCode hresp) 400) as [Hge|Hlt]; [discriminate|].
    intros [= <- <-]. split; [reflexivity|].
    exists hresp, body.
    split; [reflexivity|]. split; [exact Hbody|]. split; [exact Hlt|].
    split; reflexivity.
  - intros (-> & hresp & body & -> & Hbody & Hlt & -> & ->).
    rewrite Hbody. replace (http.StatusCode hresp >=? 400) with false by lia.
    reflexivity.
Qed.

(** X5. The request that [PostJSON] hands to [client.Do] is a POST to the
    URL of its argument, with the JSON text as body and the content type
    "application/json", and the client it is handed to has a time-out of
    30 seconds.  (The requests that the client makes of its own accord
    while following a redirect are not built by [PostJSON] and are not
    covered.) *)
Theorem PostJSON_request
    (net : Net) (req : httpclient.Request) (c : http.Client) (hr : http.Request)
    (r : res (option httpclient.Response * option error)) (tr : Trace) :
  run (httpclient.PostJSON net req) = (r, tr) ->
  In (Net_Do c hr) tr ->
  http.Timeout c = 30000000000
  /\ http.Method hr = "POST"
  /\ http.URL hr = httpclient.URL req
  /\ http.Body hr = httpclient.JSONBody req
  /\ Header_Get "Content-Type" (http.Header hr) = "application/json".
Proof.
  unfold run. rewrite PostJSON_run. intros Hrun Hin.
  assert (Hsent : Net_Do c hr = Net_Do posting_client (posted_request req)).
  { destruct (NewRequest_error net "POST" (httpclient.URL req)) as [e|].
    - injection Hrun as _ <-. destruct Hin as [[=] | []].
    - destruct (client_Do net posting_client (posted_request req)) as [e|hresp];
        injection Hrun as _ <-.
      + destruct Hin as [[=] | [H | []]]. symmetry. exact H.
      + destruct Hin as [[=] | [H | [[=] | []]]]. symmetry. exact H. }
  injection Hsent as -> ->. repeat split.
Qed.

Lemma PostJSON_request_witness :
  http.Timeout posting_client = 30000000000
  /\ http.Method (posted_request example_post) = "POST"
  /\ http.URL (posted_request example_post) = httpclient.URL example_post
  /\ http.Body (posted_request example_post) = httpclient.JSONBody example_post
  /\ Header_Get "Content-Type" (http.Header (posted_request example_post))
     = "application/json".
Proof.
  apply (PostJSON_request (net_replying 200 "{}") example_post posting_client
           (posted_request example_post)
           (fst (run (httpclient.PostJSON (net_replying 200 "{}") example_post)))
           (snd (run (httpclient.PostJSON (net_replying 200 "{}") example_post)))).
  - reflexivity.
  - vm_compute. right. left. reflexivity.
Defined.

(** X6. The request that [PostJSON] sends carries the header
    "Authorization: Bearer <token>" when the token is not empty, and no
    "Authorization" header at all when it is. *)
Theorem PostJSON_authorization
    (net : Net) (req : httpclient.Request) (c : http.Client) (hr : http.Request)
    (r : res (option httpclient.Response * option error)) (tr : Trace) :
  run (httpclient.PostJSON net req) = (r, tr) ->
  In (Net_Do c hr) tr ->
  (httpclient.AuthToken req <> "" ->
   Header_Get "Authorization" (http.Header hr) = "Bearer " ++ httpclient.AuthToken req)
  /\ (httpclient.AuthToken req = "" ->
      forall value, ~ In ("Authorization", value) (http.Header hr)).
Proof.
  unfold run. rewrite PostJSON_run. intros Hrun Hin.
  assert (Hsent : Net_Do c hr = Net_Do posting_client (posted_request req)).
  { destruct (NewRequest_error net "POST" (httpclient.URL req)) as [e|].
    - injection Hrun as _ <-. destruct Hin as [[=] | []].
    - destruct (client_Do net posting_client (posted_request req)) as [e|hresp];
        injection Hrun as _ <-.
      + destruct Hin as [[=] | [H | []]]. symmetry. exact H.
      + destruct Hin as [[=] | [H | [[=] | []]]]. symmetry. exact H. }
  injection Hsent as -> ->. unfold posted_request. cbn [http.Header].
  destruct (String.eqb_spec (httpclient.AuthToken req) "") as [Hempty|Hfull]; split.
  - contradiction.
  - intros _ value [[=] | []].
  - intros _. reflexivity.
  - contradiction.
Qed.

Lemma PostJSON_authorization_witness :
  ("sk-test" <> "" ->
   Header_Get "Authorization" (http.Header (posted_request example_post))
   = "Bearer " ++ "sk-test")
  /\ ("sk-test" = "" ->
      forall value, ~ In ("Authorization", value) (http.Header (posted_request example_post))).
Proof.
  apply (PostJSON_authorization (net_replying 200 "{}") example_post posting_client
           (posted_request example_post)
           (fst (run (httpclient.PostJSON (net_replying 200 "{}") example_post)))
           (snd (run (httpclient.PostJSON (net_replying 200 "{}") example_post)))).
  - reflexivity.
  - vm_compute. right. left. reflexivity.
Defined.

(** X7. One call of [PostJSON] calls [client.Do] at most once ([PostJSON]
    has no retry of its own), and closes a response body exactly when
    that call returned a response: once then, never otherwise. *)
Theorem PostJSON_calls_Do_once (net : Net) (req : httpclient.Request) (t : Trace) :
  exists r evs,
    httpclient.PostJSON net req t = (r, (t ++ evs)%list)
    /\ calls evs = 1%nat
    /\ (do_calls evs <= 1)%nat
    /\ closes evs
       = match NewRequest_error net "POST" (httpclient.URL req),
               client_Do net posting_client (posted_request req) with
         | None, inr _ => 1%nat
         | _, _ => 0%nat
         end.
Proof.
  rewrite PostJSON_run.
  destruct (NewRequest_error net "POST" (httpclient.URL req)) as [e|].
  - eexists _, _. split; [reflexivity|]. cbn. repeat split; lia.
  - destruct (client_Do net posting_client (posted_request req)) as [e|hresp].
    + eexists _, _. split; [reflexivity|]. cbn. repeat split; lia.
    + eexists _, _. split; [reflexivity|]. cbn. repeat split; lia.
Qed.

(** ** More on base64 *)

Lemma base64_char_encode (x : Z) : base64_char (StdEncoding.encode (Z.land x 63)) = true.
Proof.
  unfold base64_char. rewrite (decodeMap_encode _ (sextet_range x)). reflexivity.
Qed.

(** X8. The text that [EncodeData] produces has four characters for every
    three bytes, the last group rounded up: 4 * ceil(n / 3) characters for
    n bytes. *)
Theorem EncodeData_length (data : list byte) :
  String.length (base64.EncodeData data) = (4 * ((List.length data + 2) / 3))%nat.
Proof.
  unfold base64.EncodeData.
  induction data as [|a|a b|a b c rest IH] using bytes_ind3.
  - reflexivity.
  - reflexivity.
  - reflexivity.
  - cbn [StdEncoding.EncodeToString String.length List.length]. rewrite IH.
    replace (S (S (S (List.length rest))) + 2)%nat
      with (List.length rest + 2 + 1 * 3)%nat by lia.
    rewrite Nat.div_add by discriminate. lia.
Qed.

(** X9. The text that [EncodeData] produces is made of the 64 characters
    of the standard alphabet and of the padding character [=] only. *)
Theorem EncodeData_alphabet (data : list byte) :
  all_chars base64_char (base64.EncodeData data) = true.
Proof.
  unfold base64.EncodeData.
  induction data as [|a|a b|a b c rest IH] using bytes_ind3.
  - reflexivity.
  - cbn [StdEncoding.EncodeToString all_chars]. rewrite !base64_char_encode. reflexivity.
  - cbn [StdEncoding.EncodeToString all_chars]. rewrite !base64_char_encode. reflexivity.
  - cbn [StdEncoding.EncodeToString all_chars]. rewrite !base64_char_encode, IH.
    reflexivity.
Qed.

(** X10. [EncodeData] loses nothing: two byte sequences with the same
    encoding are the same sequence. *)
Theorem EncodeData_injective (a b : list byte) :
  base64.EncodeData a = base64.EncodeData b -> a = b.
Proof.
  intros H.
  assert (Hdec : StdEncoding.DecodeString (base64.EncodeData a)
                 = StdEncoding.DecodeString (base64.EncodeData b)) by (rewrite H; reflexivity).
  unfold base64.EncodeData in Hdec. rewrite !DecodeString_EncodeToString in Hdec.
  injection Hdec as ->. reflexivity.
Qed.

Lemma EncodeData_injective_witness : bytes_of_string "ABC" = bytes_of_string "ABC".
Proof.
  apply (EncodeData_injective (bytes_of_string "ABC") (bytes_of_string "ABC")).
  reflexivity.
Defined.

Lemma EncodeToString_nonempty (data : list byte) :
  data <> [] -> StdEncoding.EncodeToString data <> "".
Proof.
  destruct data as [|a [|b [|c rest]]]; [congruence | | |]; intros _;
    cbn [StdEncoding.EncodeToString]; discriminate.
Qed.

(** X11. On a file that holds at least one byte, [ReadImageToBase64]
    returns a nil error and a text that decodes, as standard padded
    base64, to the content of the file. *)
Theorem ReadImageToBase64_success (fs : FS) (filename : string) (data : list byte) :
  os_ReadFile fs filename = inr data ->
  data <> [] ->
  exists encoded,
    base64.ReadImageToBase64 fs filename = (encoded, None)
    /\ StdEncoding.DecodeString encoded = Some data.
Proof.
  intros Hread Hdata. unfold base64.ReadImageToBase64. rewrite Hread.
  destruct data as [|a rest]; [congruence|]. cbn [List.length Nat.eqb].
  eexists. split; [reflexivity|]. apply DecodeString_EncodeToString.
Qed.

Lemma ReadImageToBase64_success_witness :
  exists encoded,
    base64.ReadImageToBase64 example_fs "abc.jpg" = (encoded, None)
    /\ StdEncoding.DecodeString encoded = Some (bytes_of_string "ABC").
Proof.
  apply (ReadImageToBase64_success example_fs "abc.jpg" (bytes_of_string "ABC")).
  - reflexivity.
  - discriminate.
Defined.

(** X12. [ReadImageToBase64] returns the empty string exactly when it
    returns an error: a caller can tell a loaded image by its text not
    being empty. *)
Theorem ReadImageToBase64_empty_iff_error (fs : FS) (filename : string) :
  fst (base64.ReadImageToBase64 fs filename) = ""
  <-> snd (base64.ReadImageToBase64 fs filename) <> None.
Proof.
  unfold base64.ReadImageToBase64.
  destruct (os_ReadFile fs filename) as [err|data].
  - split; [discriminate | reflexivity].
  - destruct data as [|a rest].
    + split; [discriminate | reflexivity].
    + cbn [List.length Nat.eqb fst snd]. split.
      * intros H. exfalso. revert H. apply EncodeToString_nonempty. discriminate.
      * intros H. contradiction H. reflexivity.
Qed.

(** ** More on [AnalyzeImage] *)

(** Every run of [AnalyzeImage] on a request that passed the validation,
    spelled out on the library and the network. *)
Lemma AnalyzeImage_run (net : Net) (js : openai.JSON) (req : openai.Request) (t : Trace) :
  valid req ->
  openai.AnalyzeImage net js req t
  = match openai.json_Marshal js (built_request req) with
    | inl err => (Val (Failure ("Failed to marshal request: " ++ Error err), None), t)
    | inr jsonBody =>
        let post := post_of req jsonBody in
        match NewRequest_error net "POST" (openai.APIURL req) with
        | Some err =>
            (Val (Failure ("HTTP request failed: failed to create request: " ++ Error err),
                  None),
             (t ++ [called post])%list)
        | None =>
            match client_Do net posting_client (posted_request post) with
            | inl err =>
                (Val (Failure ("HTTP request failed: failed to perform request: "
                                 ++ Error err), None),
                 (t ++ [called post; Net_Do posting_client (posted_request post)])%list)
            | inr resp =>
                (Val (match http.BodyStream resp with
                      | inl err =>
                          Failure ("HTTP request failed: failed to read response body: "
                                     ++ Error err)
                      | inr body =>
                          if http.StatusCode resp >=? 400
                          then Failure ("HTTP request failed: HTTP error "
                                          ++ itoa (http.StatusCode resp) ++ ": "
                                          ++ string_of_bytes body)
                          else parsed js body
                      end, None),
                 (t ++ [called post; Net_Do posting_client (posted_request post);
                        Body_Close])%list)
            end
        end
    end.
Proof.
  intros (Hkey & Hurl & Hprompt).
  unfold built_request, text_part, image_part, post_of.
  validated req Hkey Hurl Hprompt.
  all: destruct (openai.json_Marshal js _) as [err|jsonBody]; [reflexivity|].
  all: unfold bind at 1; rewrite PostJSON_run; cbv zeta;
    cbn [httpclient.URL httpclient.AuthToken httpclient.JSONBody].
  all: destruct (NewRequest_error net "POST" (openai.APIURL req)) as [e|]; [reflexivity|].
  all: destruct (client_Do net posting_client _) as [e|resp]; [reflexivity|].
  all: destruct (http.BodyStream resp) as [e|body]; [reflexivity|].
  all: destruct (http.StatusCode resp >=? 400); [reflexivity|].
  all: unfold parsed; cbn [httpclient.Body].
  all: destruct (openai.json_Unmarshal js body) as [e|chatResp]; [reflexivity|].
  all: destruct (openai.chatCompletionResponse.Error chatResp); [reflexivity|].
  all: destruct (openai.chatCompletionResponse.Choices chatResp); reflexivity.
Qed.

(** A request that fails the validation leaves the trace as it is. *)
Lemma AnalyzeImage_invalid (net : Net) (js : openai.JSON) (req : openai.Request) (t : Trace) :
  ~ valid req -> exists msg, openai.AnalyzeImage net js req t = (Val (Failure msg, None), t).
Proof.
  intros Hinvalid. unfold openai.AnalyzeImage.
  destruct (String.eqb_spec (openai.APIKey req) "") as [Hkey|Hkey];
    [eexists; reflexivity|].
  destruct (String.eqb_spec (openai.APIURL req) "") as [Hurl|Hurl];
    [eexists; reflexivity|].
  destruct (String.eqb_spec (openai.Prompt req) "") as [Hprompt|Hprompt];
    [eexists; reflexivity|].
  exfalso. apply Hinvalid. repeat split; assumption.
Qed.

Lemma valid_dec (req : openai.Request) : {valid req} + {~ valid req}.
Proof.
  unfold valid.
  destruct (string_dec (openai.APIKey req) "") as [H1|H1]; [right; tauto|].
  destruct (string_dec (openai.APIURL req) "") as [H2|H2]; [right; tauto|].
  destruct (string_dec (openai.Prompt req) "") as [H3|H3]; [right; tauto|].
  left. tauto.
Qed.

(** A request that passed the validation and was marshalled is posted,
    and [AnalyzeImage] goes by what [PostJSON] returns: an error is
    reported, the body of a response returned with no error is parsed. *)
Lemma AnalyzeImage_posts (net : Net) (js : openai.JSON) (req : openai.Request)
    (jsonBody : list byte) (t : Trace) :
  valid req ->
  openai.json_Marshal js (built_request req) = inr jsonBody ->
  exists r err t1,
    httpclient.PostJSON net (post_of req jsonBody) t = (Val (r, err), t1)
    /\ (forall e, err = Some e ->
        openai.AnalyzeImage net js req t
        = (Val (Failure ("HTTP request failed: " ++ Error e), None), t1))
    /\ (err = None ->
        exists httpResp,
          r = Some httpResp
          /\ openai.AnalyzeImage net js req t
             = (Val (parsed js (httpclient.Body httpResp), None), t1)).
Proof.
  intros Hvalid Hm. rewrite (AnalyzeImage_run net js req t Hvalid), Hm. cbv zeta.
  rewrite PostJSON_run.
  change (httpclient.URL (post_of req jsonBody)) with (openai.APIURL req).
  destruct (NewRequest_error net "POST" (openai.APIURL req)) as [e|].
  { eexists _, _, _. split; [reflexivity|]. split; [|discriminate].
    intros e' [= <-]. reflexivity. }
  destruct (client_Do net posting_client (posted_request (post_of req jsonBody)))
    as [e|hresp].
  { eexists _, _, _. split; [reflexivity|]. split; [|discriminate].
    intros e' [= <-]. reflexivity. }
  destruct (http.BodyStream hresp) as [e|body].
  { eexists _, _, _. split; [reflexivity|]. split; [|discriminate].
    intros e' [= <-]. reflexivity. }
  destruct (http.StatusCode hresp >=? 400).
  { eexists _, _, _. split; [reflexivity|]. split; [|discriminate].
    intros e' [= <-]. reflexivity. }
  eexists _, _, _. split; [reflexivity|]. split; [discriminate|].
  intros _. eexists. split; reflexivity.
Qed.

(** *** The error return *)

(** C10. Whatever the request, the library and the network, [AnalyzeImage]
    returns (it does not panic) with a nil error, and the response either
    reports a failure, with [Success] false and a message that is not
    empty, or a success, with [Success] true.  Which of the two is
    decided by the stages, in order, and every failure of a stage is
    reported as a failure in the response: a request that does not pass
    the validation; a struct that [json.Marshal] refuses; an error that
    [PostJSON] returns (the request could not be created or sent, the
    body could not be read, the status code is 400 or more); a body that
    [json.Unmarshal] refuses; an error object in the decoded body; no
    choice in it.  Only when every stage has passed is the response a
    success, with the content of the first choice. *)
Theorem AnalyzeImage_error_is_nil
    (net : Net) (js : openai.JSON) (req : openai.Request) (t : Trace) :
  exists resp t',
    openai.AnalyzeImage net js req t = (Val (resp, None), t')
    /\ ((openai.Success resp = false /\ openai.ErrorMessage resp <> ""
         /\ openai.Content resp = "")
        \/ (openai.Success resp = true /\ openai.ErrorMessage resp = ""))
    /\ (~ valid req -> openai.Success resp = false /\ t' = t)
    /\ (valid req ->
        (forall err,
           openai.json_Marshal js (built_request req) = inl err ->
           resp = Failure ("Failed to marshal request: " ++ Error err))
        /\ forall jsonBody,
             openai.json_Marshal js (built_request req) = inr jsonBody ->
             (forall r err t1,
                httpclient.PostJSON net (post_of req jsonBody) t
                = (Val (r, Some err), t1) ->
                resp = Failure ("HTTP request failed: " ++ Error err))
             /\ forall httpResp t1,
                  httpclient.PostJSON net (post_of req jsonBody) t
                  = (Val (Some httpResp, None), t1) ->
                  (forall err,
                     openai.json_Unmarshal js (httpclient.Body httpResp) = inl err ->
                     resp = Failure ("Failed to parse response: " ++ Error err))
                  /\ forall chatResp,
                       openai.json_Unmarshal js (httpclient.Body httpResp)
                       = inr chatResp ->
                       (forall apiErr,
                          openai.chatCompletionResponse.Error chatResp = Some apiErr ->
                          resp = Failure
                                   ("OpenAI API error: "
                                      ++ openai.chatCompletionResponse.Error.Message apiErr))
                       /\ (openai.chatCompletionResponse.Error chatResp = None ->
                           openai.chatCompletionResponse.Choices chatResp = [] ->
                           resp = Failure "No response from OpenAI API")
                       /\ (forall choice rest,
                             openai.chatCompletionResponse.Error chatResp = None ->
                             openai.chatCompletionResponse.Choices chatResp
                             = choice :: rest ->
                             resp = Success
                                      (openai.chatCompletionResponse.Message.Content
                                         (openai.chatCompletionResponse.Choice.Message
                                            choice)))).
Proof.
  destruct (valid_dec req) as [Hvalid|Hinvalid].
  - destruct (openai.json_Marshal js (built_request req)) as [e|jsonBody] eqn:Hm.
    + exists (Failure ("Failed to marshal request: " ++ Error e)), t.
      split; [rewrite (AnalyzeImage_run net js req t Hvalid), Hm; reflexivity|].
      split; [left; split; [reflexivity|]; split; [discriminate | reflexivity]|].
      split; [intros H; contradiction|].
      intros _. split; [intros err [= <-]; reflexivity | intros jb [=]].
    + destruct (AnalyzeImage_posts net js req jsonBody t Hvalid Hm)
        as (r & err & t1 & Hpost & Hfail & Hok).
      destruct err as [e|].
      * exists (Failure ("HTTP request failed: " ++ Error e)), t1.
        split; [exact (Hfail e eq_refl)|].
        split; [left; split; [reflexivity|]; split; [discriminate | reflexivity]|].
        split; [intros H; contradiction|].
        intros _. split; [intros err [=]|]. intros jb [= <-].
        rewrite Hpost. split.
        -- intros r0 err0 t2 [= _ <- _]. reflexivity.
        -- intros httpResp t2 [=].
      * destruct (Hok eq_refl) as (httpResp & -> & Hrun).
        exists (parsed js (httpclient.Body httpResp)), t1.
        split; [exact Hrun|].
        assert (Hstages :
                  forall resp,
                    resp = parsed js (httpclient.Body httpResp) ->
                    ((openai.Success resp = false /\ openai.ErrorMessage resp <> ""
                      /\ openai.Content resp = "")
                     \/ (openai.Success resp = true /\ openai.ErrorMessage resp = ""))
                    /\ (forall err,
                          openai.json_Unmarshal js (httpclient.Body httpResp) = inl err ->
                          resp = Failure ("Failed to parse response: " ++ Error err))
                    /\ forall chatResp,
                         openai.json_Unmarshal js (httpclient.Body httpResp)
                         = inr chatResp ->
                         (forall apiErr,
                            openai.chatCompletionResponse.Error chatResp = Some apiErr ->
                            resp = Failure
                                     ("OpenAI API error: "
                                        ++ openai.chatCompletionResponse.Error.Message
                                             apiErr))
                         /\ (openai.chatCompletionResponse.Error chatResp = None ->
                             openai.chatCompletionResponse.Choices chatResp = [] ->
                             resp = Failure "No response from OpenAI API")
                         /\ (forall choice rest,
                               openai.chatCompletionResponse.Error chatResp = None ->
                               openai.chatCompletionResponse.Choices chatResp
                               = choice :: rest ->
                               resp = Success
                                        (openai.chatCompletionResponse.Message.Content
                                           (openai.chatCompletionResponse.Choice.Message
                                              choice)))).
        { intros resp ->. unfold parsed.
          destruct (openai.json_Unmarshal js (httpclient.Body httpResp))
            as [e|chatResp].
          - split; [left; split; [reflexivity|]; split; [discriminate | reflexivity]|].
            split; [intros err [= <-]; reflexivity | intros c [=]].
          - destruct (openai.chatCompletionResponse.Error chatResp)
              as [apiErr|] eqn:Herror.
            + split; [left; split; [reflexivity|]; split; [discriminate | reflexivity]|].
              split; [intros err [=]|]. intros c Hc. injection Hc as Hc. subst c.
              rewrite Herror.
              split; [intros a [= <-]; reflexivity|].
              split; [intros [=] | intros choice rest [=]].
            + destruct (openai.chatCompletionResponse.Choices chatResp)
                as [|choice rest] eqn:Hchoices.
              * split; [left; split; [reflexivity|]; split; [discriminate | reflexivity]|].
                split; [intros err [=]|]. intros c Hc. injection Hc as Hc. subst c.
                rewrite Herror, Hchoices.
                split; [intros a [=]|].
                split; [reflexivity | intros choice rest _ [=]].
              * split; [right; split; reflexivity|].
                split; [intros err [=]|]. intros c Hc. injection Hc as Hc. subst c.
                rewrite Herror, Hchoices.
                split; [intros a [=]|].
                split; [intros _ [=] | intros choice' rest' _ [= <- _]; reflexivity]. }
        destruct (Hstages _ eq_refl) as (Hshape & Hparse & Hdecoded).
        split; [exact Hshape|].
        split; [intros H; contradiction|].
        intros _. split; [intros err [=]|]. intros jb [= <-].
        rewrite Hpost. split.
        -- intros r0 err0 t2 [=].
        -- intros httpResp0 t2 [= <- _]. split; [exact Hparse | exact Hdecoded].
  - assert (Hfail : forall msg : string, msg <> "" ->
              openai.AnalyzeImage net js req t = (Val (Failure msg, None), t) ->
              exists resp t',
                openai.AnalyzeImage net js req t = (Val (resp, None), t')
                /\ ((openai.Success resp = false /\ openai.ErrorMessage resp <> ""
                     /\ openai.Content resp = "")
                    \/ (openai.Success resp = true /\ openai.ErrorMessage resp = ""))
                /\ (~ valid req -> openai.Success resp = false /\ t' = t)
                /\ (valid req -> False)).
    { intros msg Hmsg Hrun. exists (Failure msg), t. split; [exact Hrun|].
      split; [left; split; [reflexivity|]; split; [exact Hmsg | reflexivity]|].
      split; [intros _; split; reflexivity | exact Hinvalid]. }
    assert (Hrun : exists msg, msg <> ""
                     /\ openai.AnalyzeImage net js req t = (Val (Failure msg, None), t)).
    { unfold openai.AnalyzeImage.
      destruct (String.eqb_spec (openai.APIKey req) "") as [Hkey|Hkey];
        [eexists; split; [|reflexivity]; discriminate|].
      destruct (String.eqb_spec (openai.APIURL req) "") as [Hurl|Hurl];
        [eexists; split; [|reflexivity]; discriminate|].
      destruct (String.eqb_spec (openai.Prompt req) "") as [Hprompt|Hprompt];
        [eexists; split; [|reflexivity]; discriminate|].
      exfalso. apply Hinvalid. repeat split; assumption. }
    destruct Hrun as (msg & Hmsg & Hrun).
    destruct (Hfail msg Hmsg Hrun) as (resp & t' & H1 & H2 & H3 & H4).
    exists resp, t'. split; [exact H1|]. split; [exact H2|]. split; [exact H3|].
    intros Hvalid. contradiction (H4 Hvalid).
Qed.

(** X13. When [json.Marshal] fails on a request that passed the
    validation, [AnalyzeImage] reports "Failed to marshal request: " and
    the cause, and [PostJSON] is not called. *)
Theorem AnalyzeImage_marshal_failure
    (net : Net) (js : openai.JSON) (req : openai.Request) (err : error) (t : Trace) :
  valid req ->
  openai.json_Marshal js (built_request req) = inl err ->
  openai.AnalyzeImage net js req t
  = (Val (Failure ("Failed to marshal request: " ++ Error err), None), t).
Proof.
  intros Hvalid Hm. rewrite (AnalyzeImage_run net js req t Hvalid), Hm. reflexivity.
Qed.

Lemma AnalyzeImage_marshal_failure_witness :
  openai.AnalyzeImage (net_replying 200 "{}")
    (json_failing (libError "json: unsupported value")) example_request []
  = (Val (Failure ("Failed to marshal request: "
                     ++ Error (libError "json: unsupported value")), None), []).
Proof.
  apply (AnalyzeImage_marshal_failure (net_replying 200 "{}")
           (json_failing (libError "json: unsupported value")) example_request
           (libError "json: unsupported value") []).
  - repeat split; discriminate.
  - reflexivity.
Defined.

(** X14. A URL that is not empty but that [http.NewRequest] rejects
    passes the validation and fails at the creation of the request:
    [AnalyzeImage] reports "HTTP request failed: failed to create
    request: " and the cause, and nothing is sent. *)
Theorem AnalyzeImage_bad_url
    (net : Net) (js : openai.JSON) (req : openai.Request) (err : error) (t : Trace) :
  valid req -> marshals js ->
  NewRequest_error net "POST" (openai.APIURL req) = Some err ->
  exists evs,
    openai.AnalyzeImage net js req t
    = (Val (Failure ("HTTP request failed: failed to create request: " ++ Error err), None),
       (t ++ evs)%list)
    /\ do_calls evs = 0%nat.
Proof.
  intros Hvalid Hm Hnew. rewrite (AnalyzeImage_run net js req t Hvalid).
  destruct (Hm (built_request req)) as [jsonBody ->]. cbv zeta. rewrite Hnew.
  eexists. split; [reflexivity|]. reflexivity.
Qed.

Lemma AnalyzeImage_bad_url_witness :
  exists evs,
    openai.AnalyzeImage (net_rejecting (libError "parse ::: missing protocol scheme"))
      json_lib example_request []
    = (Val (Failure ("HTTP request failed: failed to create request: "
                       ++ Error (libError "parse ::: missing protocol scheme")), None),
       ([] ++ evs)%list)
    /\ do_calls evs = 0%nat.
Proof.
  apply (AnalyzeImage_bad_url (net_rejecting (libError "parse ::: missing protocol scheme"))
           json_lib example_request (libError "parse ::: missing protocol scheme") []).
  - repeat split; discriminate.
  - intros r. eexists. reflexivity.
  - reflexivity.
Defined.

(** X15. When the exchange fails (no connection, time-out, ...),
    [AnalyzeImage] reports "HTTP request failed: failed to perform
    request: " and the cause. *)
Theorem AnalyzeImage_transport_failure
    (net : Net) (js : openai.JSON) (req : openai.Request) (err : error) (t : Trace) :
  valid req -> marshals js ->
  (forall method url, NewRequest_error net method url = None) ->
  (forall c r, client_Do net c r = inl err) ->
  exists t',
    openai.AnalyzeImage net js req t
    = (Val (Failure ("HTTP request failed: failed to perform request: " ++ Error err),
            None), t').
Proof.
  intros Hvalid Hm Hnew Hdo. rewrite (AnalyzeImage_run net js req t Hvalid).
  destruct (Hm (built_request req)) as [jsonBody ->]. cbv zeta. rewrite Hnew, Hdo.
  eexists. reflexivity.
Qed.

Lemma AnalyzeImage_transport_failure_witness :
  exists t',
    openai.AnalyzeImage (net_down (libError "dial tcp: i/o timeout")) json_lib
      example_request []
    = (Val (Failure ("HTTP request failed: failed to perform request: "
                       ++ Error (libError "dial tcp: i/o timeout")), None), t').
Proof.
  apply (AnalyzeImage_transport_failure (net_down (libError "dial tcp: i/o timeout"))
           json_lib example_request (libError "dial tcp: i/o timeout") []).
  - repeat split; discriminate.
  - intros r. eexists. reflexivity.
  - intros method url. reflexivity.
  - intros c r. reflexivity.
Defined.

(** X16. When [PostJSON] hands back a response with no error and
    [json.Unmarshal] rejects its body, [AnalyzeImage] reports "Failed to
    parse response: " and the cause. *)
Theorem AnalyzeImage_parse_failure
    (net : Net) (js : openai.JSON) (req : openai.Request)
    (httpResp : httpclient.Response) (err : error) (t : Trace) :
  valid req -> marshals js -> hands_back net httpResp ->
  openai.json_Unmarshal js (httpclient.Body httpResp) = inl err ->
  exists t',
    openai.AnalyzeImage net js req t
    = (Val (Failure ("Failed to parse response: " ++ Error err), None), t').
Proof.
  intros Hvalid Hm Hback Hdec.
  destruct (AnalyzeImage_parses net js req httpResp t Hvalid Hm Hback) as (t' & ->).
  rewrite Hdec. exists t'. reflexivity.
Qed.

Lemma AnalyzeImage_parse_failure_witness :
  exists t',
    openai.AnalyzeImage (net_replying 200 (json_text "{'choices':[")) json_lib
      example_request []
    = (Val (Failure ("Failed to parse response: "
                       ++ Error (libError "unexpected end of JSON input")), None), t').
Proof.
  apply (AnalyzeImage_parse_failure (net_replying 200 (json_text "{'choices':[")) json_lib
           example_request
           {| httpclient.Body := bytes_of_string (json_text "{'choices':[");
              httpclient.StatusCode := 200 |}
           (libError "unexpected end of JSON input") []).
  - repeat split; discriminate.
  - intros r. eexists. reflexivity.
  - intros req t. eexists. vm_compute. reflexivity.
  - vm_compute. reflexivity.
Defined.


(** The trace of a run from the empty trace. *)
Lemma AnalyzeImage_sent (net : Net) (js : openai.JSON) (req : openai.Request)
    (r : res (openai.Response * option error)) (tr : Trace)
    (c : http.Client) (hr : http.Request) :
  run (openai.AnalyzeImage net js req) = (r, tr) ->
  In (Net_Do c hr) tr ->
  valid req
  /\ exists jsonBody,
       openai.json_Marshal js (built_request req) = inr jsonBody
       /\ NewRequest_error net "POST" (openai.APIURL req) = None
       /\ c = posting_client
       /\ hr = posted_request (post_of req jsonBody).
Proof.
  unfold run. intros Hrun Hin.
  destruct (valid_dec req) as [Hvalid|Hinvalid].
  - split; [exact Hvalid|]. rewrite (AnalyzeImage_run net js req [] Hvalid) in Hrun.
    destruct (openai.json_Marshal js (built_request req)) as [e|jsonBody].
    + injection Hrun as _ <-. destruct Hin.
    + exists jsonBody. split; [reflexivity|]. cbv zeta in Hrun.
      destruct (NewRequest_error net "POST" (openai.APIURL req)) as [e|].
      * injection Hrun as _ <-. destruct Hin as [[=] | []].
      * split; [reflexivity|].
        destruct (client_Do net posting_client _) as [e|resp]; injection Hrun as _ <-.
        -- destruct Hin as [[=] | [[= <- <-] | []]]. split; reflexivity.
        -- destruct Hin as [[=] | [[= <- <-] | [[=] | []]]]. split; reflexivity.
  - destruct (AnalyzeImage_invalid net js req [] Hinvalid) as (msg & Heq).
    rewrite Heq in Hrun. injection Hrun as _ <-. destruct Hin.
Qed.

(** X18. The request that [client.Do] is called with during a run of
    [AnalyzeImage] has the endpoint of the request as URL, which is not
    empty, carries the header "Authorization: Bearer <APIKey>", the key
    not being empty, and has the marshalled struct as body: [client.Do]
    is never called without the credential.  (The requests that the
    client makes of its own accord while following a redirect are not
    covered.) *)
Theorem AnalyzeImage_authenticated
    (net : Net) (js : openai.JSON) (req : openai.Request)
    (r : res (openai.Response * option error)) (tr : Trace)
    (c : http.Client) (hr : http.Request) :
  run (openai.AnalyzeImage net js req) = (r, tr) ->
  In (Net_Do c hr) tr ->
  openai.APIKey req <> ""
  /\ openai.APIURL req <> ""
  /\ http.URL hr = openai.APIURL req
  /\ Header_Get "Authorization" (http.Header hr) = "Bearer " ++ openai.APIKey req
  /\ exists chatReq jsonBody,
       sends req chatReq
       /\ openai.json_Marshal js chatReq = inr jsonBody
       /\ http.Body hr = string_of_bytes jsonBody.
Proof.
  intros Hrun Hin.
  destruct (AnalyzeImage_sent net js req r tr c hr Hrun Hin)
    as (Hvalid & jsonBody & Hm & _ & _ & ->).
  destruct Hvalid as (Hkey & Hurl & Hprompt).
  split; [exact Hkey|]. split; [exact Hurl|]. split; [reflexivity|]. split.
  - unfold posted_request, post_of. cbn [httpclient.AuthToken http.Header].
    rewrite (eqb_empty_false _ Hkey). reflexivity.
  - exists (built_request req), jsonBody. split.
    + apply AnalyzeImage_sends. repeat split; assumption.
    + split; [exact Hm | reflexivity].
Qed.

Lemma AnalyzeImage_authenticated_witness :
  openai.APIKey example_request <> ""
  /\ openai.APIURL example_request <> ""
  /\ http.URL (posted_request (post_of example_request
                                 (json.Marshal (built_request example_request))))
     = openai.APIURL example_request
  /\ Header_Get "Authorization"
       (http.Header (posted_request (post_of example_request
                                       (json.Marshal (built_request example_request)))))
     = "Bearer " ++ openai.APIKey example_request
  /\ exists chatReq jsonBody,
       sends example_request chatReq
       /\ openai.json_Marshal json_lib chatReq = inr jsonBody
       /\ http.Body (posted_request (post_of example_request
                                       (json.Marshal (built_request example_request))))
          = string_of_bytes jsonBody.
Proof.
  apply (AnalyzeImage_authenticated (net_replying 200 "{}") json_lib example_request
           (fst (run (openai.AnalyzeImage (net_replying 200 "{}") json_lib example_request)))
           (snd (run (openai.AnalyzeImage (net_replying 200 "{}") json_lib example_request)))
           posting_client
           (posted_request (post_of example_request
                              (json.Marshal (built_request example_request))))).
  - reflexivity.
  - vm_compute. right. left. reflexivity.
Defined.

(** X19. [AnalyzeImage] reports a success in one case only: the request
    passed the validation and was marshalled, the exchange completed with
    a status code below 400 and a body that was read, and that body
    decodes with no error object and at least one choice; the content is
    then the content of the first choice. *)
Theorem AnalyzeImage_success_only_if
    (net : Net) (js : openai.JSON) (req : openai.Request) (t : Trace)
    (resp : openai.Response) (err : option error) (tr : Trace) :
  openai.AnalyzeImage net js req t = (Val (resp, err), tr) ->
  openai.Success resp = true ->
  valid req
  /\ exists jsonBody hresp body chatResp choice rest,
       openai.json_Marshal js (built_request req) = inr jsonBody
       /\ client_Do net posting_client (posted_request (post_of req jsonBody)) = inr hresp
       /\ http.StatusCode hresp < 400
       /\ http.BodyStream hresp = inr body
       /\ openai.json_Unmarshal js body = inr chatResp
       /\ openai.chatCompletionResponse.Error chatResp = None
       /\ openai.chatCompletionResponse.Choices chatResp = choice :: rest
       /\ openai.Content resp
          = openai.chatCompletionResponse.Message.Content
              (openai.chatCompletionResponse.Choice.Message choice).
Proof.
  intros Hrun Hsuccess.
  destruct (valid_dec req) as [Hvalid|Hinvalid].
  2:{ destruct (AnalyzeImage_invalid net js req t Hinvalid) as (msg & Heq).
      rewrite Heq in Hrun. injection Hrun as <- _ _. discriminate Hsuccess. }
  split; [exact Hvalid|]. rewrite (AnalyzeImage_run net js req t Hvalid) in Hrun.
  destruct (openai.json_Marshal js (built_request req)) as [e|jsonBody];
    [injection Hrun as <- _ _; discriminate Hsuccess|].
  cbv zeta in Hrun.
  destruct (NewRequest_error net "POST" (openai.APIURL req)) as [e|];
    [injection Hrun as <- _ _; discriminate Hsuccess|].
  destruct (client_Do net posting_client _) as [e|hresp] eqn:Hdo;
    [injection Hrun as <- _ _; discriminate Hsuccess|].
  destruct (http.BodyStream hresp) as [e|body] eqn:Hbody;
    [injection Hrun as <- _ _; discriminate Hsuccess|].
  destruct (Z.geb_spec (http.StatusCode hresp) 400) as [Hge|Hlt];
    [injection Hrun as <- _ _; discriminate Hsuccess|].
  unfold parsed in Hrun.
  destruct (openai.json_Unmarshal js body) as [e|chatResp] eqn:Hdec;
    [injection Hrun as <- _ _; discriminate Hsuccess|].
  destruct (openai.chatCompletionResponse.Error chatResp) eqn:Herr;
    [injection Hrun as <- _ _; discriminate Hsuccess|].
  destruct (openai.chatCompletionResponse.Choices chatResp) as [|choice rest] eqn:Hchoices;
    [injection Hrun as <- _ _; discriminate Hsuccess|].
  injection Hrun as <- _ _.
  exists jsonBody, hresp, body, chatResp, choice, rest.
  split; [reflexivity|]. split; [exact Hdo|]. split; [exact Hlt|].
  split; [exact Hbody|]. split; [exact Hdec|]. split; [exact Herr|].
  split; [exact Hchoices | reflexivity].
Qed.

Lemma AnalyzeImage_success_only_if_witness :
  valid example_request
  /\ exists jsonBody hresp body chatResp choice rest,
       openai.json_Marshal json_lib (built_request example_request) = inr jsonBody
       /\ client_Do (net_replying 200 (json_text "{'choices':[{'message':{'content':'Amanita'}}]}"))
            posting_client (posted_request (post_of example_request jsonBody)) = inr hresp
       /\ http.StatusCode hresp < 400
       /\ http.BodyStream hresp = inr body
       /\ openai.json_Unmarshal json_lib body = inr chatResp
       /\ openai.chatCompletionResponse.Error chatResp = None
       /\ openai.chatCompletionResponse.Choices chatResp = choice :: rest
       /\ openai.Content (Success "Amanita")
          = openai.chatCompletionResponse.Message.Content
              (openai.chatCompletionResponse.Choice.Message choice).
Proof.
  apply (AnalyzeImage_success_only_if
           (net_replying 200 (json_text "{'choices':[{'message':{'content':'Amanita'}}]}"))
           json_lib example_request [] (Success "Amanita") None
           (snd (run (openai.AnalyzeImage
                        (net_replying 200
                           (json_text "{'choices':[{'message':{'content':'Amanita'}}]}"))
                        json_lib example_request)))).
  - vm_compute. reflexivity.
  - reflexivity.
Defined.

(** ** Package [config] *)

(** X20. When the file cannot be loaded, [Load] returns a nil
    configuration; the error is "configuration file .env not found",
    without the cause, when the cause is a missing file, and "failed to
    load .env file: " with the cause wrapped otherwise.  The variables
    are not looked at. *)
Theorem Load_file_error (lib : config.Lib) (env env' : config.Environ) (err : error) :
  config.godotenv_Load lib ".env" env = (Some err, env') ->
  config.Load lib env
  = ((None,
      Some (if config.os_IsNotExist lib err
            then errorString "configuration file .env not found"
            else wrapError ("failed to load .env file: " ++ Error err) err)), env').
Proof.
  intros H. unfold config.Load. cbv zeta. rewrite H.
  destruct (config.os_IsNotExist lib err); reflexivity.
Qed.

Lemma Load_file_error_witness :
  config.Load dotenv_missing env_empty
  = ((None,
      Some (if config.os_IsNotExist dotenv_missing
                 (libError "open .env: no such file or directory")
            then errorString "configuration file .env not found"
            else wrapError ("failed to load .env file: "
                              ++ Error (libError "open .env: no such file or directory"))
                   (libError "open .env: no such file or directory"))), env_empty).
Proof.
  apply (Load_file_error dotenv_missing env_empty env_empty
           (libError "open .env: no such file or directory")).
  reflexivity.
Defined.

(** X21. When the file is loaded and OPENAI_API_KEY is empty or not set
    afterwards, [Load] returns a nil configuration and the error
    "OPENAI_API_KEY not found in .env file", whatever OPENAI_API_URL
    is. *)
Theorem Load_requires_key (lib : config.Lib) (env env' : config.Environ) :
  config.godotenv_Load lib ".env" env = (None, env') ->
  config.os_Getenv env' "OPENAI_API_KEY" = "" ->
  config.Load lib env
  = ((None, Some (errorString "OPENAI_API_KEY not found in .env file")), env').
Proof.
  intros Hload Hkey. unfold config.Load. cbv zeta. rewrite Hload.
  cbn [config.OpenAIAPIKey]. rewrite Hkey. reflexivity.
Qed.

Lemma Load_requires_key_witness :
  config.Load (dotenv_with "" "https://example.org/v1") env_empty
  = ((None, Some (errorString "OPENAI_API_KEY not found in .env file")),
     snd (config.godotenv_Load (dotenv_with "" "https://example.org/v1") ".env" env_empty)).
Proof.
  apply (Load_requires_key (dotenv_with "" "https://example.org/v1") env_empty
           (snd (config.godotenv_Load (dotenv_with "" "https://example.org/v1")
                   ".env" env_empty))).
  - reflexivity.
  - reflexivity.
Defined.

(** X22. A configuration that [Load] returns comes with a nil error; the
    file was loaded; its key is the value of OPENAI_API_KEY after that
    and is not empty; its endpoint is the value of OPENAI_API_URL, or
    "https://api.openai.com/v1/chat/completions" when that is empty or
    not set, and so is not empty either. *)
Theorem Load_config (lib : config.Lib) (env env' : config.Environ)
    (cfg : config.Config) (err : option error) :
  config.Load lib env = ((Some cfg, err), env') ->
  err = None
  /\ config.godotenv_Load lib ".env" env = (None, env')
  /\ config.OpenAIAPIKey cfg = config.os_Getenv env' "OPENAI_API_KEY"
  /\ config.OpenAIAPIKey cfg <> ""
  /\ config.OpenAIAPIURL cfg
     = (if String.eqb (config.os_Getenv env' "OPENAI_API_URL") ""
        then "https://api.openai.com/v1/chat/completions"
        else config.os_Getenv env' "OPENAI_API_URL")
  /\ config.OpenAIAPIURL cfg <> "".
Proof.
  unfold config.Load. cbv zeta.
  destruct (config.godotenv_Load lib ".env" env) as [[e|] env1].
  - destruct (config.os_IsNotExist lib e); discriminate.
  - cbn [config.OpenAIAPIKey config.OpenAIAPIURL].
    destruct (String.eqb_spec (config.os_Getenv env1 "OPENAI_API_KEY") "")
      as [Hkey|Hkey]; [discriminate|].
    destruct (String.eqb_spec (config.os_Getenv env1 "OPENAI_API_URL") "")
      as [Hurl|Hurl];
      intros [= <- <- <-]; cbn [config.set_OpenAIAPIURL config.OpenAIAPIKey
                                 config.OpenAIAPIURL].
    + rewrite Hurl. split; [reflexivity|]. split; [reflexivity|]. split; [reflexivity|].
      split; [exact Hkey|]. split; [reflexivity | discriminate].
    + rewrite (eqb_empty_false _ Hurl).
      split; [reflexivity|]. split; [reflexivity|]. split; [reflexivity|].
      split; [exact Hkey|]. split; [reflexivity | exact Hurl].
Qed.

Lemma Load_config_witness :
  @None error = None
  /\ config.godotenv_Load (dotenv_with "sk-test" "") ".env" env_empty
     = (None, snd (config.Load (dotenv_with "sk-test" "") env_empty))
  /\ config.OpenAIAPIKey example_config
     = config.os_Getenv (snd (config.Load (dotenv_with "sk-test" "") env_empty))
         "OPENAI_API_KEY"
  /\ config.OpenAIAPIKey example_config <> ""
  /\ config.OpenAIAPIURL example_config
     = (if String.eqb
             (config.os_Getenv (snd (config.Load (dotenv_with "sk-test" "") env_empty))
                "OPENAI_API_URL") ""
        then "https://api.openai.com/v1/chat/completions"
        else config.os_Getenv (snd (config.Load (dotenv_with "sk-test" "") env_empty))
               "OPENAI_API_URL")
  /\ config.OpenAIAPIURL example_config <> "".
Proof.
  apply (Load_config (dotenv_with "sk-test" "") env_empty
           (snd (config.Load (dotenv_with "sk-test" "") env_empty)) example_config None).
  reflexivity.
Defined.

(** X23. [Load] returns a configuration or an error, never both and
    never neither. *)
Theorem Load_config_xor_error (lib : config.Lib) (env : config.Environ) :
  (fst (fst (config.Load lib env)) = None /\ snd (fst (config.Load lib env)) <> None)
  \/ (fst (fst (config.Load lib env)) <> None /\ snd (fst (config.Load lib env)) = None).
Proof.
  unfold config.Load. cbv zeta.
  destruct (config.godotenv_Load lib ".env" env) as [[e|] env1].
  - left. destruct (config.os_IsNotExist lib e); cbn [fst snd];
      (split; [reflexivity | discriminate]).
  - destruct (String.eqb _ ""); cbn [fst snd].
    + left. split; [reflexivity | discriminate].
    + right. split; [discriminate | reflexivity].
Qed.

(** ** Package [gui] *)

(** [AnalyzeImage] returns, with a nil error. *)
Lemma AnalyzeImage_returns (net : Net) (js : openai.JSON) (req : openai.Request) (t : Trace) :
  exists resp t', openai.AnalyzeImage net js req t = (Val (resp, None), t').
Proof.
  destruct (valid_dec req) as [Hvalid|Hinvalid].
  - rewrite (AnalyzeImage_run net js req t Hvalid).
    destruct (openai.json_Marshal js (built_request req)) as [e|jsonBody];
      [eexists _, _; reflexivity|].
    cbv zeta. destruct (NewRequest_error net "POST" (openai.APIURL req)) as [e|];
      [eexists _, _; reflexivity|].
    destruct (client_Do net posting_client _) as [e|resp]; eexists _, _; reflexivity.
  - destruct (AnalyzeImage_invalid net js req t Hinvalid) as (msg & ->).
    eexists _, _. reflexivity.
Qed.

(** A text that [ReadImageToBase64] returns with a nil error is not
    empty. *)
Lemma ReadImageToBase64_loaded (fs : FS) (filename encoded : string) :
  base64.ReadImageToBase64 fs filename = (encoded, None) -> encoded <> "".
Proof.
  unfold base64.ReadImageToBase64.
  destruct (os_ReadFile fs filename) as [err|data]; [discriminate|].
  destruct data as [|a rest]; [discriminate|]. cbn [List.length Nat.eqb].
  cbv zeta. unfold base64.EncodeData. intros H.
  apply (f_equal fst) in H. cbn [fst] in H. rewrite <- H.
  apply EncodeToString_nonempty. discriminate.
Qed.

Lemma prompt_nonempty : gui.getMushroomPrompt <> "".
Proof.
  discriminate.
Qed.

(** X24. A click on "Classify Mushroom" while no image is loaded starts
    no goroutine and leaves the application as it is; it logs and shows
    the error "No image loaded". *)
Theorem onClassifyClicked_no_image (tk : gui.Toolkit) (app : gui.App)
    (shown : list gui.UIEvent) :
  gui.Base64Image app = "" ->
  gui.onClassifyClicked tk (app, shown)
  = (None, (app, (shown ++ [gui.Logged "Error: No image loaded";
                            gui.ErrorShown (gui.fmt_Sprintf0 tk "No image loaded")])%list)).
Proof.
  intros H. unfold gui.onClassifyClicked. rewrite H. reflexivity.
Qed.

Lemma onClassifyClicked_no_image_witness :
  gui.onClassifyClicked example_toolkit (fst (gui.NewApp example_config), [])
  = (None, (fst (gui.NewApp example_config),
            ([] ++ [gui.Logged "Error: No image loaded";
                    gui.ErrorShown (gui.fmt_Sprintf0 example_toolkit "No image loaded")])%list)).
Proof.
  apply (onClassifyClicked_no_image example_toolkit (fst (gui.NewApp example_config)) []).
  reflexivity.
Defined.

(** X25. A click on "Classify Mushroom" while an image is loaded, in an
    application whose configuration has a key and an endpoint, disables
    both buttons and starts the goroutine with a request that passes the
    validation of [AnalyzeImage]; what is marshalled for it is the model
    "gpt-4o", a limit of 1000 tokens and one user message made of the
    prompt and of the loaded image. *)
Theorem onClassifyClicked_request (tk : gui.Toolkit) (app : gui.App)
    (shown : list gui.UIEvent) :
  usable (gui.Config app) ->
  gui.Base64Image app <> "" ->
  exists req app',
    gui.onClassifyClicked tk (app, shown) = (Some req, (app', shown))
    /\ gui.UploadButton app' = false
    /\ gui.ClassifyButton app' = false
    /\ gui.StatusLabel app' = "Analyzing image..."
    /\ valid req
    /\ sends req
         {| openai.chatCompletionRequest.Model := "gpt-4o";
            openai.chatCompletionRequest.Messages :=
              [ {| openai.message.Role := "user";
                   openai.message.Content :=
                     [text_part gui.getMushroomPrompt;
                      image_part (gui.Base64Image app)] |} ];
            openai.chatCompletionRequest.MaxTokens := 1000 |}.
Proof.
  intros (Hkey & Hurl) Himg. unfold gui.onClassifyClicked.
  rewrite (eqb_empty_false _ Himg). cbv zeta.
  eexists _, _. split; [reflexivity|].
  split; [reflexivity|]. split; [reflexivity|]. split; [reflexivity|].
  assert (Hvalid : valid
            {| openai.APIKey := config.OpenAIAPIKey (gui.Config app);
               openai.APIURL := config.OpenAIAPIURL (gui.Config app);
               openai.Model := "gpt-4o";
               openai.Prompt := gui.getMushroomPrompt;
               openai.Base64Image := gui.Base64Image app;
               openai.MaxTokens := 1000 |}).
  { split; [exact Hkey|]. split; [exact Hurl | exact prompt_nonempty]. }
  cbn [gui.Config gui.Base64Image gui.set_ResultView gui.set_StatusLabel
       gui.set_ClassifyButton gui.set_UploadButton].
  split; [exact Hvalid|].
  pose proof (AnalyzeImage_sends _ Hvalid) as Hsends.
  unfold built_request in Hsends.
  cbn [openai.Model openai.MaxTokens openai.Base64Image openai.Prompt] in Hsends.
  rewrite (eqb_empty_false _ Himg) in Hsends. exact Hsends.
Qed.

Lemma onClassifyClicked_request_witness :
  exists req app',
    gui.onClassifyClicked example_toolkit
      (gui.set_Base64Image (fst (gui.NewApp example_config)) "QUJD", [])
    = (Some req, (app', []))
    /\ gui.UploadButton app' = false
    /\ gui.ClassifyButton app' = false
    /\ gui.StatusLabel app' = "Analyzing image..."
    /\ valid req
    /\ sends req
         {| openai.chatCompletionRequest.Model := "gpt-4o";
            openai.chatCompletionRequest.Messages :=
              [ {| openai.message.Role := "user";
                   openai.message.Content :=
                     [text_part gui.getMushroomPrompt; image_part "QUJD"] |} ];
            openai.chatCompletionRequest.MaxTokens := 1000 |}.
Proof.
  apply (onClassifyClicked_request example_toolkit
           (gui.set_Base64Image (fst (gui.NewApp example_config)) "QUJD") []).
  - split; discriminate.
  - discriminate.
Defined.

(** What the goroutine does, by the response of [AnalyzeImage]. *)
Lemma onClassifyClicked_go_run (tk : gui.Toolkit) (net : Net) (js : openai.JSON)
    (req : openai.Request) (app : gui.App) (shown : list gui.UIEvent) (t : Trace) :
  exists resp t',
    openai.AnalyzeImage net js req t = (Val (resp, None), t')
    /\ gui.onClassifyClicked_go tk net js req (app, shown) t
       = (Val (if openai.Success resp
               then
                 (gui.set_ClassifyButton
                    (gui.set_UploadButton
                       (gui.set_StatusLabel
                          (gui.set_ResultView app (openai.Content resp))
                          "Analysis complete") true) true,
                  shown)
               else
                 (gui.set_ClassifyButton
                    (gui.set_UploadButton
                       (gui.set_ResultView
                          (gui.set_StatusLabel app "Analysis failed") "") true) true,
                  (shown
                   ++ [gui.Logged ("Error: Analysis failed: "
                                     ++ gui.fmt_Sprintf0 tk (openai.ErrorMessage resp));
                       gui.ErrorShown
                         (gui.fmt_Sprintf0 tk
                            ("Analysis failed: "
                               ++ gui.fmt_Sprintf0 tk (openai.ErrorMessage resp)))])%list)),
          t').
Proof.
  destruct (AnalyzeImage_returns net js req t) as (resp & t' & Hrun).
  exists resp, t'. split; [exact Hrun|].
  unfold gui.onClassifyClicked_go. rewrite Hrun.
  destruct (openai.Success resp); reflexivity.
Qed.

(** X26. The goroutine of a classification always ends, and ends with
    both buttons enabled, whatever the outcome of the analysis; it
    changes neither the loaded image nor the configuration. *)
Theorem onClassifyClicked_go_reenables (tk : gui.Toolkit) (net : Net) (js : openai.JSON)
    (req : openai.Request) (w : gui.World) (t : Trace) :
  exists app' shown' t',
    gui.onClassifyClicked_go tk net js req w t = (Val (app', shown'), t')
    /\ gui.UploadButton app' = true
    /\ gui.ClassifyButton app' = true
    /\ gui.Base64Image app' = gui.Base64Image (fst w)
    /\ gui.ImagePath app' = gui.ImagePath (fst w)
    /\ gui.ImageView_File app' = gui.ImageView_File (fst w)
    /\ gui.Config app' = gui.Config (fst w).
Proof.
  destruct w as [app shown].
  destruct (onClassifyClicked_go_run tk net js req app shown t) as (resp & t' & _ & ->).
  destruct (openai.Success resp); eexists _, _, _; (split; [reflexivity|]);
    repeat split.
Qed.

(** X27. What the goroutine shows: when the analysis succeeds, the
    result view holds the content, the status is "Analysis complete" and
    no dialog is shown; when it fails, the result view is emptied, the
    status is "Analysis failed" and one error is logged and shown, made
    from the message of the failure.  The branch for a non-nil error of
    [AnalyzeImage] is never taken. *)
Theorem onClassifyClicked_go_outcome (tk : gui.Toolkit) (net : Net) (js : openai.JSON)
    (req : openai.Request) (app : gui.App) (shown : list gui.UIEvent) (t : Trace)
    (resp : openai.Response) (err : option error) (t' : Trace) :
  openai.AnalyzeImage net js req t = (Val (resp, err), t') ->
  exists app' shown',
    gui.onClassifyClicked_go tk net js req (app, shown) t = (Val (app', shown'), t')
    /\ err = None
    /\ (openai.Success resp = true ->
        gui.ResultView app' = openai.Content resp
        /\ gui.StatusLabel app' = "Analysis complete"
        /\ shown' = shown)
    /\ (openai.Success resp = false ->
        gui.ResultView app' = ""
        /\ gui.StatusLabel app' = "Analysis failed"
        /\ shown'
           = (shown
              ++ [gui.Logged ("Error: Analysis failed: "
                                ++ gui.fmt_Sprintf0 tk (openai.ErrorMessage resp));
                  gui.ErrorShown
                    (gui.fmt_Sprintf0 tk
                       ("Analysis failed: "
                          ++ gui.fmt_Sprintf0 tk (openai.ErrorMessage resp)))])%list).
Proof.
  intros Hrun.
  destruct (onClassifyClicked_go_run tk net js req app shown t)
    as (resp1 & t1 & Hrun1 & ->).
  rewrite Hrun in Hrun1. injection Hrun1 as <- -> <-.
  destruct (openai.Success resp); eexists _, _; (split; [reflexivity|]);
    (split; [reflexivity|]); split; intros H; try discriminate H;
    (split; [reflexivity|]); split; reflexivity.
Qed.

Lemma onClassifyClicked_go_outcome_witness :
  exists app' shown',
    gui.onClassifyClicked_go example_toolkit
      (net_replying 200 (json_text "{'choices':[{'message':{'content':'Amanita'}}]}"))
      json_lib example_request (fst (gui.NewApp example_config), []) []
    = (Val (app', shown'),
       snd (run (openai.AnalyzeImage
                   (net_replying 200
                      (json_text "{'choices':[{'message':{'content':'Amanita'}}]}"))
                   json_lib example_request)))
    /\ @None error = None
    /\ (openai.Success (Success "Amanita") = true ->
        gui.ResultView app' = openai.Content (Success "Amanita")
        /\ gui.StatusLabel app' = "Analysis complete"
        /\ shown' = [])
    /\ (openai.Success (Success "Amanita") = false ->
        gui.ResultView app' = ""
        /\ gui.StatusLabel app' = "Analysis failed"
        /\ shown'
           = ([]
              ++ [gui.Logged ("Error: Analysis failed: "
                                ++ gui.fmt_Sprintf0 example_toolkit
                                     (openai.ErrorMessage (Success "Amanita")));
                  gui.ErrorShown
                    (gui.fmt_Sprintf0 example_toolkit
                       ("Analysis failed: "
                          ++ gui.fmt_Sprintf0 example_toolkit
                               (openai.ErrorMessage (Success "Amanita"))))])%list).
Proof.
  apply (onClassifyClicked_go_outcome example_toolkit
           (net_replying 200 (json_text "{'choices':[{'message':{'content':'Amanita'}}]}"))
           json_lib example_request (fst (gui.NewApp example_config)) [] []
           (Success "Amanita") None).
  vm_compute. reflexivity.
Defined.

(** What the callback of the file dialog does, by the outcome of the
    load. *)
Lemma onUploadClicked_callback_run (tk : gui.Toolkit) (fs : FS) (reader : option string)
    (err : option error) (app : gui.App) (shown : list gui.UIEvent) :
  gui.onUploadClicked_callback tk fs reader err (app, shown)
  = match err, reader with
    | Some e, _ =>
        (app, (shown ++ [gui.Logged ("Error: Failed to open file dialog: " ++ Error e);
                         gui.ErrorShown
                           (gui.fmt_Sprintf0 tk
                              ("Failed to open file dialog: " ++ Error e))])%list)
    | None, None => (app, shown)
    | None, Some filename =>
        match base64.ReadImageToBase64 fs filename with
        | (_, Some e) =>
            (app, (shown ++ [gui.Logged ("Error: Failed to load image: " ++ Error e);
                             gui.ErrorShown
                               (gui.fmt_Sprintf0 tk ("Failed to load image: " ++ Error e));
                             gui.ReaderClosed])%list)
        | (encoded, None) =>
            (gui.set_ClassifyButton
               (gui.set_StatusLabel
                  (gui.set_ImagePath
                     (gui.set_ImageView_File (gui.set_Base64Image app encoded) filename)
                     filename)
                  ("Loaded: " ++ gui.filepath_Base tk filename)) true,
             (shown ++ [gui.ImageRefreshed; gui.ReaderClosed])%list)
        end
    end.
Proof.
  unfold gui.onUploadClicked_callback, gui.loadImage, gui.showError.
  destruct err as [e|]; [reflexivity|].
  destruct reader as [filename|]; [|reflexivity].
  destruct (base64.ReadImageToBase64 fs filename) as [encoded [e|]].
  - cbn [fst snd]. rewrite <- app_assoc. reflexivity.
  - cbn [fst snd]. rewrite <- app_assoc. reflexivity.
Qed.

(** X28. The callback of the file dialog changes the application only
    when an image is loaded: when the dialog failed, when it was
    cancelled, or when the file cannot be read or is empty, every field
    of the application is as before (the button "Classify Mushroom" is
    not enabled by it, the image loaded before stays). *)
Theorem onUploadClicked_callback_unchanged (tk : gui.Toolkit) (fs : FS)
    (reader : option string) (err : option error) (w : gui.World) :
  err <> None
  \/ reader = None
  \/ (exists filename,
        reader = Some filename
        /\ snd (base64.ReadImageToBase64 fs filename) <> None) ->
  fst (gui.onUploadClicked_callback tk fs reader err w) = fst w.
Proof.
  destruct w as [app shown]. rewrite onUploadClicked_callback_run.
  intros [Herr | [Hreader | (filename & Hreader & Hload)]].
  - destruct err as [e|]; [reflexivity | contradiction].
  - subst reader. destruct err; reflexivity.
  - subst reader. destruct err as [e|]; [reflexivity|].
    destruct (base64.ReadImageToBase64 fs filename) as [encoded [e|]];
      [reflexivity | contradiction Hload; reflexivity].
Qed.

Lemma onUploadClicked_callback_unchanged_witness :
  fst (gui.onUploadClicked_callback example_toolkit example_fs (Some "empty.jpg") None
         (gui.set_ClassifyButton
            (gui.set_Base64Image (fst (gui.NewApp example_config)) "QUJD") true, []))
  = fst (gui.set_ClassifyButton
           (gui.set_Base64Image (fst (gui.NewApp example_config)) "QUJD") true,
         @nil gui.UIEvent).
Proof.
  apply (onUploadClicked_callback_unchanged example_toolkit example_fs
           (Some "empty.jpg") None
           (gui.set_ClassifyButton
              (gui.set_Base64Image (fst (gui.NewApp example_config)) "QUJD") true, [])).
  right. right. exists "empty.jpg". split; [reflexivity | discriminate].
Defined.

(** X29. When the dialog hands over a file that holds at least one byte,
    the callback stores its base64 text, which decodes to the content of
    the file, records the path, shows it in the image view and in the
    status, and enables "Classify Mushroom"; the reader is closed. *)
Theorem onUploadClicked_callback_loads (tk : gui.Toolkit) (fs : FS) (filename : string)
    (data : list byte) (app : gui.App) (shown : list gui.UIEvent) :
  os_ReadFile fs filename = inr data ->
  data <> [] ->
  exists app',
    gui.onUploadClicked_callback tk fs (Some filename) None (app, shown)
    = (app', (shown ++ [gui.ImageRefreshed; gui.ReaderClosed])%list)
    /\ StdEncoding.DecodeString (gui.Base64Image app') = Some data
    /\ gui.Base64Image app' <> ""
    /\ gui.ImagePath app' = filename
    /\ gui.ImageView_File app' = filename
    /\ gui.StatusLabel app' = "Loaded: " ++ gui.filepath_Base tk filename
    /\ gui.ClassifyButton app' = true
    /\ gui.UploadButton app' = gui.UploadButton app
    /\ gui.Config app' = gui.Config app.
Proof.
  intros Hread Hdata. rewrite onUploadClicked_callback_run.
  assert (Hload : base64.ReadImageToBase64 fs filename
                  = (StdEncoding.EncodeToString data, None)).
  { unfold base64.ReadImageToBase64. rewrite Hread.
    destruct data as [|a rest]; [congruence | reflexivity]. }
  rewrite Hload. eexists. split; [reflexivity|].
  cbn [gui.Base64Image gui.ImagePath gui.ImageView_File gui.StatusLabel gui.ClassifyButton
       gui.UploadButton gui.Config gui.set_ClassifyButton gui.set_StatusLabel
       gui.set_ImagePath gui.set_ImageView_File gui.set_Base64Image].
  split; [apply DecodeString_EncodeToString|].
  split; [apply EncodeToString_nonempty; exact Hdata|].
  split; [reflexivity|]. split; [reflexivity|]. split; [reflexivity|].
  split; [reflexivity|]. split; reflexivity.
Qed.

Lemma onUploadClicked_callback_loads_witness :
  exists app',
    gui.onUploadClicked_callback example_toolkit example_fs (Some "abc.jpg") None
      (fst (gui.NewApp example_config), [])
    = (app', ([] ++ [gui.ImageRefreshed; gui.ReaderClosed])%list)
    /\ StdEncoding.DecodeString (gui.Base64Image app') = Some (bytes_of_string "ABC")
    /\ gui.Base64Image app' <> ""
    /\ gui.ImagePath app' = "abc.jpg"
    /\ gui.ImageView_File app' = "abc.jpg"
    /\ gui.StatusLabel app' = "Loaded: " ++ gui.filepath_Base example_toolkit "abc.jpg"
    /\ gui.ClassifyButton app' = true
    /\ gui.UploadButton app' = gui.UploadButton (fst (gui.NewApp example_config))
    /\ gui.Config app' = gui.Config (fst (gui.NewApp example_config)).
Proof.
  apply (onUploadClicked_callback_loads example_toolkit example_fs "abc.jpg"
           (bytes_of_string "ABC") (fst (gui.NewApp example_config)) []).
  - reflexivity.
  - discriminate.
Defined.

(** Every step of the application keeps the invariant. *)
Lemma happens_kept (cfg : config.Config) (s s' : Running) :
  kept cfg s -> happens s s' -> kept cfg s'.
Proof.
  intros Hkept Hstep. destruct Hstep as
      [ [app shown] pending t
      | tk fs reader err [app shown] pending t
      | tk [app shown] pending t
      | tk net js req before after [app shown] [app' shown'] t t' Hgo ];
    cbn [kept] in Hkept; destruct Hkept as (Hcfg & Hbutton & Hpending & Hall).
  - cbn [kept gui.onUploadClicked]. auto.
  - rewrite onUploadClicked_callback_run.
    destruct err as [e|]; [cbn [kept]; auto|].
    destruct reader as [filename|]; [|cbn [kept]; auto].
    destruct (base64.ReadImageToBase64 fs filename) as [encoded [e|]] eqn:Hload;
      [cbn [kept]; auto|].
    pose proof (ReadImageToBase64_loaded _ _ _ Hload) as Hencoded.
    cbn [kept gui.Config gui.ClassifyButton gui.Base64Image gui.set_ClassifyButton
         gui.set_StatusLabel gui.set_ImagePath gui.set_ImageView_File gui.set_Base64Image].
    auto.
  - unfold gui.onClassifyClicked.
    destruct (String.eqb (gui.Base64Image app) "") eqn:Himg.
    + cbn [fst snd gui.showError kept]. auto.
    + apply String.eqb_neq in Himg.
      cbn [fst snd kept gui.Config gui.ClassifyButton gui.Base64Image
           gui.set_ResultView gui.set_StatusLabel gui.set_ClassifyButton
           gui.set_UploadButton].
      split; [exact Hcfg|]. split; [discriminate|]. split; [intros _; exact Himg|].
      apply Forall_app. split; [exact Hall|]. constructor; [|constructor].
      cbn [openai.APIKey openai.APIURL openai.Prompt openai.Base64Image].
      rewrite Hcfg. auto.
  - destruct (onClassifyClicked_go_run tk net js req app shown t)
      as (resp & t1 & _ & Hgo1).
    rewrite Hgo1 in Hgo.
    assert (Himg : gui.Base64Image app <> "").
    { apply Hpending. destruct before; discriminate. }
    assert (Hall' : Forall (fun req =>
                              openai.APIKey req = config.OpenAIAPIKey cfg
                              /\ openai.APIURL req = config.OpenAIAPIURL cfg
                              /\ openai.Prompt req = gui.getMushroomPrompt
                              /\ openai.Base64Image req <> "") (before ++ after)%list).
    { apply Forall_app in Hall. destruct Hall as (Hbefore & Hafter).
      apply Forall_app. split; [exact Hbefore|].
      inversion Hafter; assumption. }
    destruct (openai.Success resp); injection Hgo as <- <- <-;
      cbn [kept gui.Config gui.ClassifyButton gui.Base64Image gui.set_ResultView
           gui.set_StatusLabel gui.set_ClassifyButton gui.set_UploadButton];
      auto.
Qed.

Lemma reachable_kept (cfg : config.Config) (s : Running) :
  reachable cfg s -> kept cfg s.
Proof.
  induction 1 as [|s s' _ IH Hstep].
  - cbn [kept gui.NewApp fst gui.Config gui.ClassifyButton gui.Base64Image].
    split; [reflexivity|]. split; [discriminate|]. split; [congruence|]. constructor.
  - exact (happens_kept cfg s s' IH Hstep).
Qed.

(** X30. In every state that the application can reach from [NewApp cfg],
    whatever the order of the clicks, the files chosen and the answers of
    the network (clicks on disabled buttons included): the configuration
    is still [cfg]; "Classify Mushroom" is enabled only while an image is
    loaded, so a click on it never shows "No image loaded"; and every
    request of a goroutine that has not finished carries an image and,
    when [cfg] has a key and an endpoint, passes the validation of
    [AnalyzeImage]. *)
Theorem reachable_requests (cfg : config.Config) (app : gui.App)
    (shown : list gui.UIEvent) (pending : list openai.Request) (t : Trace) :
  reachable cfg ((app, shown), pending, t) ->
  gui.Config app = cfg
  /\ (gui.ClassifyButton app = true -> gui.Base64Image app <> "")
  /\ Forall (fun req => openai.Base64Image req <> "" /\ (usable cfg -> valid req))
       pending.
Proof.
  intros Hreach. apply reachable_kept in Hreach. cbn [kept] in Hreach.
  destruct Hreach as (Hcfg & Hbutton & _ & Hall).
  split; [exact Hcfg|]. split; [exact Hbutton|].
  apply Forall_forall. intros req Hin.
  rewrite Forall_forall in Hall. destruct (Hall req Hin) as (Hkey & Hurl & Hprompt & Himg).
  split; [exact Himg|]. intros (Hk & Hu).
  split; [rewrite Hkey; exact Hk|].
  split; [rewrite Hurl; exact Hu | rewrite Hprompt; exact prompt_nonempty].
Qed.

Lemma reachable_requests_witness :
  gui.Config (fst (fst (fst example_run))) = example_config
  /\ (gui.ClassifyButton (fst (fst (fst example_run))) = true ->
      gui.Base64Image (fst (fst (fst example_run))) <> "")
  /\ Forall (fun req =>
               openai.Base64Image req <> "" /\ (usable example_config -> valid req))
       (snd (fst example_run)).
Proof.
  apply (reachable_requests example_config (fst (fst (fst example_run)))
           (snd (fst (fst example_run))) (snd (fst example_run)) (snd example_run)).
  change (reachable example_config example_run).
  eapply after_step; [eapply after_step; [eapply after_step; [apply at_start|] |] |].
  - apply upload_clicked.
  - apply (file_chosen example_toolkit example_fs (Some "abc.jpg") None).
  - apply (classify_clicked example_toolkit).
Defined.
